(** * Fetch-proxy demonstration pages: the SSR page and the ISR page

    A shallow embedding of the two page modules ([getSSRData] with
    [SSRPage], [getISRData] with [ISRPage]) and the properties of the result
    records they build.

    Everything outside the two modules is the environment [Env]: the
    platform's [fetch], the clock, the random generator, [JSON.stringify]
    and the printing of numbers.  The pages are written in a small monad
    that threads the network log and the [results.fetchTests] array and in
    which a JavaScript exception is an abrupt completion. *)

From Stdlib Require Import Floats Uint63 ZArith String Ascii DecimalString List Bool Arith Lia.
Import ListNotations.
Open Scope list_scope.
Open Scope string_scope.
Set Warnings "-register-all".

(* ================================================================= *)
(** ** JavaScript values met by the pages *)

(** A JavaScript number is an IEEE 754 binary64 value. *)
Definition number := float.

(** What [response.json()] resolves with: the result of [JSON.parse].  An
    object is the list of its own properties, each name once, in order. *)
Inductive json : Type :=
| JNull
| JBool (b : bool)
| JNum (n : number)
| JStr (s : string)
| JArr (items : list json)
| JObj (props : list (string * json)).

(** A value held by a variable or an object field: [undefined] or a JSON
    value (a string is [JStr]). *)
Inductive value : Type :=
| Undefined
| Json (j : json).

Definition Str (s : string) : value := Json (JStr s).
Definition Num (n : number) : value := Json (JNum n).

(** What a [throw] carries.  [fetch], [response.json()] and a failed
    property read raise [Error] instances ([TypeError], [SyntaxError],
    [DOMException]); for any other thrown value [text] is what
    [String(error)] yields. *)
Inductive thrown : Type :=
| ErrorInstance (message : string)
| NonError (text : string).

(** Completion of an evaluation: a value, or an exception. *)
Inductive completion (A : Type) : Type :=
| Normal (a : A)
| Throws (e : thrown).
Arguments Normal {A} a.
Arguments Throws {A} e.

(** ToBoolean. *)
Definition number_truthy (n : number) : bool :=
  negb (PrimFloat.eqb n 0%float || PrimFloat.is_nan n).

Definition truthy (v : value) : bool :=
  match v with
  | Undefined => false
  | Json JNull => false
  | Json (JBool b) => b
  | Json (JNum n) => number_truthy n
  | Json (JStr s) => negb (String.eqb s "")
  | Json (JArr _) => true
  | Json (JObj _) => true
  end.

(** [a || b] *)
Definition js_or (a b : value) : value := if truthy a then a else b.

(** [h || fallback] where [h] is [string | null], as [Headers.get]
    returns it. *)
Definition or_string (h : option string) (fallback : string) : string :=
  match h with
  | Some s => if String.eqb s "" then fallback else s
  | None => fallback
  end.

Fixpoint lookup (name : string) (props : list (string * json)) : option json :=
  match props with
  | [] => None
  | (k, v) :: rest => if String.eqb k name then Some v else lookup name rest
  end.

(** [o.name] for the property names the pages read ([json], [test], [uuid],
    [origin]): none of them is inherited from a prototype, so on a
    primitive, an array or an object without the own property the read
    gives [undefined]; on [null] and [undefined] it raises a [TypeError]
    (message as V8 words it). *)
Definition cannot_read (base name : string) : thrown :=
  ErrorInstance ("Cannot read properties of " ++ base ++ " (reading '" ++ name ++ "')").

Definition get_property (o : value) (name : string) : completion value :=
  match o with
  | Undefined => Throws (cannot_read "undefined" name)
  | Json JNull => Throws (cannot_read "null" name)
  | Json (JObj props) =>
      match lookup name props with
      | Some v => Normal (Json v)
      | None => Normal Undefined
      end
  | Json _ => Normal Undefined
  end.

(** [o?.name] *)
Definition get_property_opt (o : value) (name : string) : completion value :=
  match o with
  | Undefined | Json JNull => Normal Undefined
  | _ => get_property o name
  end.

(** [error instanceof Error ? error.message : String(error)] *)
Definition error_text (error : thrown) : string :=
  match error with
  | ErrorInstance message => message
  | NonError text => text
  end.

(* ================================================================= *)
(** ** Strings and their code units *)

(** A JavaScript string is kept as its text in (generalised) UTF-8; its
    length and its positions count UTF-16 code units.  A lead byte opens a
    sequence of one to four bytes; a sequence of four bytes is a character
    outside the basic plane and counts two code units, every other
    sequence counts one. *)
Inductive width : Type := One | Two | Three | Four.

Definition width_of (c : ascii) : width :=
  let b := N_of_ascii c in
  if (b <? 192)%N then One
  else if (b <? 224)%N then Two
  else if (b <? 240)%N then Three
  else Four.

(** The first half of the surrogate pair of the character written
    [a b c d], as the three bytes of a lone surrogate. *)
Definition high_surrogate (a b c d : ascii) : string :=
  let point :=
    (N.land (N_of_ascii a) 7 * 262144 + N.land (N_of_ascii b) 63 * 4096
     + N.land (N_of_ascii c) 63 * 64 + N.land (N_of_ascii d) 63)%N in
  let high := (55296 + (point - 65536) / 1024)%N in
  String (ascii_of_N 237)
    (String (ascii_of_N (160 + N.land (high / 64) 15))
       (String (ascii_of_N (128 + N.land high 63)) EmptyString)).

(** [s.length].  A sequence cut short by the end of the text counts one. *)
Fixpoint code_units (s : string) : nat :=
  match s with
  | EmptyString => 0
  | String a rest =>
      match width_of a, rest with
      | One, _ => S (code_units rest)
      | Two, String _ r => S (code_units r)
      | Three, String _ (String _ r) => S (code_units r)
      | Four, String _ (String _ (String _ r)) => S (S (code_units r))
      | _, _ => 1
      end
  end.

(** [s.substring(0, n)]: the first [n] code units of [s]; a cut between the
    two code units of a character leaves the first of them. *)
Fixpoint first_code_units (n : nat) (s : string) : string :=
  match s with
  | EmptyString => EmptyString
  | String a rest =>
      match n with
      | 0 => EmptyString
      | S m =>
          match width_of a, rest with
          | One, _ => String a (first_code_units m rest)
          | Two, String b r => String a (String b (first_code_units m r))
          | Three, String b (String c r) =>
              String a (String b (String c (first_code_units m r)))
          | Four, String b (String c (String d r)) =>
              match m with
              | 0 => high_surrogate a b c d
              | S k =>
                  String a (String b (String c (String d (first_code_units k r))))
              end
          | _, _ => String a rest
          end
      end
  end.

(* ================================================================= *)
(** ** The platform *)

(** The second argument of [fetch]. *)
Record RequestInit : Type := {
  method : option string;
  headers : list (string * string);
  body : option string;
  next_revalidate : option number;      (* next: { revalidate: n } *)
  cache : option string
}.

Record Request : Type := {
  url : string;
  init : RequestInit
}.

Module Response.
Record t : Type := {
  ok : bool;
  status : number;
  headers_get : string -> option string;   (* response.headers.get(name) *)
  json : completion json                   (* await response.json() *)
}.
End Response.

Record Env : Type := {
  (** what [fetch] does on the [k]-th outbound call of a run, [k] counted
      from 0: resolve with a response or reject *)
  net : nat -> Request -> completion Response.t;
  (** [JSON.stringify] on a value built from JSON data *)
  JSON_stringify : json -> string;
  (** Number::toString *)
  Number_toString : number -> string;
  (** the [k]-th [new Date().toISOString()] and [Date.now()] of a run *)
  Date_toISOString : nat -> string;
  Date_now : nat -> number;
  (** [Math.floor(Math.random() * 1000)] and
      [Math.random().toString(36).substring(7)] *)
  random_below_1000 : number;
  random_base36 : string
}.

(* ================================================================= *)
(** ** The result record *)

(** [interface FetchTestResult].  The ISR module declares the field
    [cacheInfo] in addition; the SSR module never sets it.  An optional
    field that the object literal leaves out is [None]. *)
Record FetchTestResult : Type := {
  test : string;
  status : string;
  statusCode : option number;
  proxyUsed : option string;
  error : option string;
  data : option value;
  cacheInfo : option string
}.

(* ================================================================= *)
(** ** State and exceptions *)

(** [sent] is the log of the outbound calls made so far, [tests] the array
    [results.fetchTests]. *)
Record State : Type := {
  sent : list Request;
  tests : list FetchTestResult
}.

Definition M (A : Type) : Type := State -> completion A * State.

Definition ret {A : Type} (a : A) : M A := fun s => (Normal a, s).

Definition bind {A B : Type} (c : M A) (k : A -> M B) : M B :=
  fun s =>
    match c s with
    | (Normal a, s') => k a s'
    | (Throws e, s') => (Throws e, s')
    end.

(** A completion taken as a step of the program. *)
Definition await {A : Type} (c : completion A) : M A := fun s => (c, s).

(** [try { body } catch (error) { handler }]: what [body] did to the state
    before it threw stays done. *)
Definition try_catch (body : M unit) (handler : thrown -> M unit) : M unit :=
  fun s =>
    match body s with
    | (Normal u, s') => (Normal u, s')
    | (Throws e, s') => handler e s'
    end.

(** [results.fetchTests = []] and [results.fetchTests.push(r)] *)
Definition new_fetchTests : M unit :=
  fun s => (Normal tt, {| sent := sent s; tests := [] |}).

Definition push (r : FetchTestResult) : M unit :=
  fun s => (Normal tt, {| sent := sent s; tests := (tests s ++ [r])%list |}).

Definition read_fetchTests : M (list FetchTestResult) :=
  fun s => (Normal (tests s), s).

Declare Scope js_scope.
Delimit Scope js_scope with js.
Notation "x <- c ;; k" := (bind c (fun x => k))
  (at level 61, c at next level, right associativity) : js_scope.
Notation "c ;; k" := (bind c (fun _ => k))
  (at level 61, right associativity) : js_scope.
Notation "'try' b 'catch' e => h" := (try_catch b (fun e => h))
  (at level 62, b at level 61, e name, h at level 61) : js_scope.
Open Scope js_scope.

Definition start : State := {| sent := []; tests := [] |}.

(** Sequencing of completions, for expressions that touch no state. *)
Definition and_then {A B : Type} (c : completion A) (k : A -> completion B)
  : completion B :=
  match c with
  | Normal a => k a
  | Throws e => Throws e
  end.

(* ================================================================= *)
(** ** Conversion to a string and the fetch primitive *)

Section ToString.
Variable number_toString : number -> string.      (* Number::toString *)

(** ToString on a JSON value.  An array is joined with commas, a [null]
    element giving the empty string; an object prints as
    [[object Object]] unless an own property shadows [toString], in which
    case no method yields a primitive and a [TypeError] is raised. *)
Fixpoint to_string (j : json) : completion string :=
  match j with
  | JNull => Normal "null"
  | JBool true => Normal "true"
  | JBool false => Normal "false"
  | JNum n => Normal (number_toString n)
  | JStr s => Normal s
  | JArr items =>
      (fix join (l : list json) : completion string :=
         match l with
         | [] => Normal ""
         | x :: rest =>
             and_then (match x with JNull => Normal "" | _ => to_string x end)
               (fun s =>
                  match rest with
                  | [] => Normal s
                  | _ :: _ => and_then (join rest) (fun t => Normal (s ++ "," ++ t))
                  end)
         end) items
  | JObj props =>
      match lookup "toString" props with
      | Some _ => Throws (ErrorInstance "Cannot convert object to primitive value")
      | None => Normal "[object Object]"
      end
  end.

(** [`${v}`] *)
Definition template (v : value) : completion string :=
  match v with
  | Undefined => Normal "undefined"
  | Json j => to_string j
  end.
End ToString.

(** [await fetch(url, init)]: the call is logged, and the environment
    decides whether it resolves or rejects. *)
Definition fetch (env : Env) (url : string) (init : RequestInit) : M Response.t :=
  fun s =>
    let request := {| url := url; init := init |} in
    (net env (length (sent s)) request,
     {| sent := (sent s ++ [request])%list; tests := tests s |}).

(* ================================================================= *)
(** ** The element tree a page returns *)

(** JSX builds a tree and runs no component: [PageLayout], [DemoLayout]
    and [DataDisplay] live outside the two modules and only receive
    props. *)
Inductive node : Type :=
| Text (s : string)
| Expr (v : value)                                  (* {expression} *)
| Element (tag : string) (key : option nat) (className : string)
          (children : list node)
| DataDisplay (title description : string)
              (data : list (string * value * string))      (* label, value, color *)
              (features : list (string * string)).         (* title, description *)

(** Props of [<DemoLayout>] inside [<PageLayout>]. *)
Record DemoLayout : Type := {
  title : string;
  subtitle : string;
  description : string;
  codeExample : string;
  renderMode : string;
  dataDisplay : node
}.

Definition optional_number (o : option number) : value :=
  match o with Some n => Num n | None => Undefined end.

Definition optional_string (o : option string) : value :=
  match o with Some s => Str s | None => Undefined end.

Definition optional_value (o : option value) : value :=
  match o with Some v => v | None => Undefined end.

(** [array.length] as a number *)
Definition length_number {A : Type} (l : list A) : number :=
  PrimFloat.of_uint63 (Uint63.of_Z (Z.of_nat (length l))).

(** [{v && element}] *)
Definition js_and (v : value) (element : node) : node :=
  if truthy v then element else Expr v.

(** The class of the status badge; both pages carry the same chain of
    conditionals. *)
Definition badge_class (status : string) : string :=
  "px-2 py-1 rounded text-sm font-medium " ++
  (if String.eqb status "SUCCESS" then "bg-green-600 text-white"
   else if String.eqb status "EXPECTED_ERROR" then "bg-yellow-600 text-white"
   else if String.eqb status "NETWORK_ERROR" then "bg-red-600 text-white"
   else if String.eqb status "HTTP_ERROR" then "bg-orange-600 text-white"
   else "bg-gray-600 text-white").

(** [<div className=c><span className="font-medium">label</span> {v}</div>] *)
Definition labelled (c label : string) (v : value) : node :=
  Element "div" None c
    [Element "span" None "font-medium" [Text label]; Text " "; Expr v].

Definition card_header (t : FetchTestResult) : node :=
  Element "div" None "flex justify-between items-start mb-2"
    [Element "h4" None "text-lg font-medium text-white" [Expr (Str (test t))];
     Element "span" None (badge_class (status t)) [Expr (Str (status t))]].

(* ================================================================= *)
(** ** The SSR page: [getSSRData] and [SSRPage] *)

Module SSR.
Record results : Type := {
  requestTime : string;
  serverTime : string;
  dataFetchTime : string;
  realtimeValue : number;
  timestamp : number;
  serverHash : string;
  fetchTests : list FetchTestResult
}.

Section GetSSRData.
Variable env : Env.

(** [JSON.stringify(data).substring(0, 100) + '...'] *)
Definition normal_data (data : json) : completion value :=
  Normal (Str (first_code_units 100 (JSON_stringify env data) ++ "...")).

(** [`Received: ${responseData.json?.test || 'POST data'}`] *)
Definition post_data (responseData : json) : completion value :=
  and_then (get_property (Json responseData) "json") (fun j =>
  and_then (get_property_opt j "test") (fun t =>
  and_then (template (Number_toString env) (js_or t (Str "POST data"))) (fun s =>
  Normal (Str ("Received: " ++ s))))).

(** Test 1: Normal successful fetch *)
Definition test1 : M unit :=
  try (
    response <- fetch env "https://httpbin.org/json"
      {| method := Some "GET"; headers := [("User-Agent", "NextJS-SSR-Test")];
         body := None; next_revalidate := None; cache := None |} ;;
    if Response.ok response then
      data <- await (Response.json response) ;;
      preview <- await (normal_data data) ;;
      push {| test := "Normal Fetch"; status := "SUCCESS";
              statusCode := Some (Response.status response);
              proxyUsed := Some (or_string (Response.headers_get response "oe-proxy-used") "unknown");
              error := None; data := Some preview; cacheInfo := None |}
    else
      push {| test := "Normal Fetch"; status := "HTTP_ERROR";
              statusCode := Some (Response.status response);
              proxyUsed := None;
              error := Some ("HTTP " ++ Number_toString env (Response.status response));
              data := None; cacheInfo := None |}
  ) catch error =>
    push {| test := "Normal Fetch"; status := "NETWORK_ERROR";
            statusCode := None; proxyUsed := None;
            error := Some (error_text error); data := None; cacheInfo := None |}.

(** Test 2: Fetch with timeout *)
Definition test2 : M unit :=
  try (
    response <- fetch env "https://httpbin.org/delay/2"
      {| method := Some "GET"; headers := [("User-Agent", "NextJS-SSR-Timeout-Test")];
         body := None; next_revalidate := None; cache := None |} ;;
    if Response.ok response then
      await (Response.json response) ;;
      push {| test := "Timeout Test"; status := "SUCCESS";
              statusCode := Some (Response.status response);
              proxyUsed := Some (or_string (Response.headers_get response "oe-proxy-used") "likely_proxy");
              error := None; data := Some (Str "Delayed response received");
              cacheInfo := None |}
    else
      push {| test := "Timeout Test"; status := "HTTP_ERROR";
              statusCode := Some (Response.status response);
              proxyUsed := None;
              error := Some ("HTTP " ++ Number_toString env (Response.status response));
              data := None; cacheInfo := None |}
  ) catch error =>
    push {| test := "Timeout Test"; status := "NETWORK_ERROR";
            statusCode := None; proxyUsed := Some "likely_proxy";
            error := Some (error_text error); data := None; cacheInfo := None |}.

(** Test 3: Fetch to non-existent domain *)
Definition test3 : M unit :=
  try (
    response <- fetch env "https://non-existent-domain-12345.com/api/test"
      {| method := Some "GET"; headers := [];
         body := None; next_revalidate := None; cache := None |} ;;
    push {| test := "Non-existent Domain"; status := "UNEXPECTED_SUCCESS";
            statusCode := Some (Response.status response);
            proxyUsed := Some "definitely_proxy";
            error := None; data := None; cacheInfo := None |}
  ) catch error =>
    push {| test := "Non-existent Domain"; status := "EXPECTED_ERROR";
            statusCode := None; proxyUsed := Some "proxy_attempted";
            error := Some (error_text error); data := None; cacheInfo := None |}.

(** Test 4: POST request with body *)
Definition test4 : M unit :=
  try (
    response <- fetch env "https://httpbin.org/post"
      {| method := Some "POST";
         headers := [("Content-Type", "application/json");
                     ("User-Agent", "NextJS-SSR-POST-Test")];
         body := Some (JSON_stringify env
                  (JObj [("test", JStr "SSR Fetch Proxy Test");
                         ("timestamp", JNum (Date_now env 1));
                         ("source", JStr "NextJS SSR Page")]));
         next_revalidate := None; cache := None |} ;;
    if Response.ok response then
      responseData <- await (Response.json response) ;;
      received <- await (post_data responseData) ;;
      push {| test := "POST Request"; status := "SUCCESS";
              statusCode := Some (Response.status response);
              proxyUsed := Some (or_string (Response.headers_get response "oe-proxy-used") "unknown");
              error := None; data := Some received; cacheInfo := None |}
    else
      push {| test := "POST Request"; status := "HTTP_ERROR";
              statusCode := Some (Response.status response);
              proxyUsed := None;
              error := Some ("HTTP " ++ Number_toString env (Response.status response));
              data := None; cacheInfo := None |}
  ) catch error =>
    push {| test := "POST Request"; status := "NETWORK_ERROR";
            statusCode := None; proxyUsed := None;
            error := Some (error_text error); data := None; cacheInfo := None |}.

Definition getSSRData : M results :=
  new_fetchTests ;;
  test1 ;;
  test2 ;;
  test3 ;;
  test4 ;;
  fetchTests' <- read_fetchTests ;;
  ret {| requestTime := Date_toISOString env 0;
         serverTime := Date_toISOString env 1;
         dataFetchTime := Date_toISOString env 2;
         realtimeValue := random_below_1000 env;
         timestamp := Date_now env 0;
         serverHash := random_base36 env;
         fetchTests := fetchTests' |}.

(** The callback of [data.fetchTests.map]. *)
Definition test_card (t : FetchTestResult) (index : nat) : node :=
  Element "div" (Some index) "border border-gray-600 rounded-lg p-4"
    [card_header t;
     Element "div" None "grid grid-cols-1 md:grid-cols-2 gap-2 text-sm"
       [js_and (optional_number (statusCode t))
          (labelled "text-gray-300" "Status Code:" (optional_number (statusCode t)));
        js_and (optional_string (proxyUsed t))
          (labelled "text-gray-300" "Proxy Used:" (optional_string (proxyUsed t)));
        js_and (optional_string (error t))
          (labelled "text-red-400 col-span-full" "Error:" (optional_string (error t)));
        js_and (optional_value (data t))
          (labelled "text-green-400 col-span-full" "Data:" (optional_value (data t)))]].

Definition SSRPage : M DemoLayout :=
  data <- getSSRData ;;
  let codeExample :=
"// app/ssr/page.tsx - Fetch Proxy Testing
export const dynamic = 'force-dynamic'

export default async function SSRPage() {
  // Test 1: Normal fetch (may use proxy if connection fails)
  const response1 = await fetch('https://httpbin.org/json')
  
  // Test 2: Timeout scenario (should trigger proxy fallback)
  const response2 = await fetch('https://httpbin.org/delay/2')
  
  // Test 3: Non-existent domain (proxy will attempt)
  const response3 = await fetch('https://non-existent-domain.com/api')
  
  // Test 4: POST with body (proxy should preserve body)
  const response4 = await fetch('https://httpbin.org/post', {
    method: 'POST',
    headers: { 'Content-Type': 'application/json' },
    body: JSON.stringify({ test: 'proxy test' })
  })
  
  return <div>Fetch Proxy Test Results</div>
}" in
  let ssrData :=
    [("Request Time", Str (requestTime data), "text-green-400");
     ("Server Time", Str (serverTime data), "text-blue-400");
     ("Real-time Value", Num (realtimeValue data), "text-purple-400");
     ("Server Hash", Str (serverHash data), "text-indigo-400");
     ("Fetch Tests Count", Num (length_number (fetchTests data)), "text-yellow-400")] in
  let ssrFeatures :=
    [("Fetch Proxy Detection", "Tests if fetch requests use proxy when direct connection fails");
     ("Error Handling", "Validates proper error handling for network failures");
     ("Timeout Fallback", "Tests proxy fallback when requests timeout");
     ("Body Preservation", "Ensures POST request bodies are preserved through proxy")] in
  ret {| title := "SSR + Fetch Proxy Test";
         subtitle := "Server-side rendering with fetch proxy functionality testing and error handling validation.";
         description := "This page tests the Fetch Proxy functionality by making various HTTP requests and observing proxy behavior, timeout handling, and error responses.";
         codeExample := codeExample;
         renderMode := "SSR";
         dataDisplay :=
           Element "div" None "space-y-6"
             [DataDisplay "SSR: Server-Side Rendering + Fetch Proxy"
                "Real-time fetch proxy testing with various scenarios"
                ssrData ssrFeatures;
              Element "div" None "bg-gray-800 rounded-lg p-6"
                [Element "h3" None "text-xl font-semibold text-white mb-4"
                   [Text "Fetch Proxy Test Results"];
                 Element "div" None "space-y-4"
                   (map (fun '(index, t) => test_card t index)
                        (combine (seq 0 (length (fetchTests data))) (fetchTests data)))]] |}.
End GetSSRData.
End SSR.


(* ================================================================= *)
(** ** The ISR page: [getISRData] and [ISRPage] *)

Module ISR.
Record results : Type := {
  buildTime : string;
  cacheStatus : string;
  fetchTests : list FetchTestResult
}.

Section GetISRData.
Variable env : Env.

(** [responseData.uuid] and [responseData.origin] *)
Definition uuid_data (responseData : json) : completion value :=
  get_property (Json responseData) "uuid".

Definition origin_data (responseData : json) : completion value :=
  get_property (Json responseData) "origin".

(** Test 1: Cached fetch with ISR *)
Definition test1 : M unit :=
  try (
    response <- fetch env "https://httpbin.org/uuid"
      {| method := None; headers := []; body := None;
         next_revalidate := Some 10%float; cache := None |} ;;
    if Response.ok response then
      responseData <- await (Response.json response) ;;
      uuid <- await (uuid_data responseData) ;;
      push {| test := "ISR Cached Fetch"; status := "SUCCESS";
              statusCode := Some (Response.status response);
              proxyUsed := Some (or_string (Response.headers_get response "oe-proxy-used") "unknown");
              error := None; data := Some uuid;
              cacheInfo := Some "Cached with ISR revalidation" |}
    else
      push {| test := "ISR Cached Fetch"; status := "HTTP_ERROR";
              statusCode := Some (Response.status response);
              proxyUsed := None;
              error := Some ("HTTP " ++ Number_toString env (Response.status response));
              data := None; cacheInfo := None |}
  ) catch error =>
    push {| test := "ISR Cached Fetch"; status := "NETWORK_ERROR";
            statusCode := None; proxyUsed := Some "likely_proxy";
            error := Some (error_text error); data := None; cacheInfo := None |}.

(** Test 2: No-cache fetch *)
Definition test2 : M unit :=
  try (
    response <- fetch env "https://httpbin.org/ip"
      {| method := None; headers := []; body := None;
         next_revalidate := None; cache := Some "no-store" |} ;;
    if Response.ok response then
      responseData <- await (Response.json response) ;;
      origin <- await (origin_data responseData) ;;
      push {| test := "No-Cache Fetch"; status := "SUCCESS";
              statusCode := Some (Response.status response);
              proxyUsed := Some (or_string (Response.headers_get response "oe-proxy-used") "unknown");
              error := None; data := Some origin;
              cacheInfo := Some "No cache - fresh request" |}
    else
      push {| test := "No-Cache Fetch"; status := "HTTP_ERROR";
              statusCode := Some (Response.status response);
              proxyUsed := None;
              error := Some ("HTTP " ++ Number_toString env (Response.status response));
              data := None; cacheInfo := None |}
  ) catch error =>
    push {| test := "No-Cache Fetch"; status := "NETWORK_ERROR";
            statusCode := None; proxyUsed := Some "likely_proxy";
            error := Some (error_text error); data := None; cacheInfo := None |}.

(** Test 3: Slow endpoint *)
Definition test3 : M unit :=
  try (
    response <- fetch env "https://httpbin.org/delay/1"
      {| method := None; headers := []; body := None;
         next_revalidate := Some 10%float; cache := None |} ;;
    if Response.ok response then
      await (Response.json response) ;;
      push {| test := "Slow Endpoint"; status := "SUCCESS";
              statusCode := Some (Response.status response);
              proxyUsed := Some (or_string (Response.headers_get response "oe-proxy-used") "likely_proxy");
              error := None; data := Some (Str "Delayed response received");
              cacheInfo := Some "Cached after successful proxy request" |}
    else
      push {| test := "Slow Endpoint"; status := "HTTP_ERROR";
              statusCode := Some (Response.status response);
              proxyUsed := None;
              error := Some ("HTTP " ++ Number_toString env (Response.status response));
              data := None; cacheInfo := None |}
  ) catch error =>
    push {| test := "Slow Endpoint"; status := "NETWORK_ERROR";
            statusCode := None; proxyUsed := Some "proxy_attempted";
            error := Some (error_text error); data := None; cacheInfo := None |}.

(** Test 4: Error endpoint *)
Definition test4 : M unit :=
  try (
    response <- fetch env "https://httpbin.org/status/500"
      {| method := None; headers := []; body := None;
         next_revalidate := Some 5%float; cache := None |} ;;
    push {| test := "Error Endpoint"; status := "HTTP_ERROR";
            statusCode := Some (Response.status response);
            proxyUsed := Some (or_string (Response.headers_get response "oe-proxy-used") "unknown");
            error := Some ("Server returned " ++ Number_toString env (Response.status response));
            data := None;
            cacheInfo := Some "Error responses may not be cached" |}
  ) catch error =>
    push {| test := "Error Endpoint"; status := "NETWORK_ERROR";
            statusCode := None; proxyUsed := Some "proxy_attempted";
            error := Some (error_text error); data := None; cacheInfo := None |}.

Definition getISRData : M results :=
  new_fetchTests ;;
  test1 ;;
  test2 ;;
  test3 ;;
  test4 ;;
  fetchTests' <- read_fetchTests ;;
  ret {| buildTime := Date_toISOString env 0;
         cacheStatus := "cached for 10 seconds";
         fetchTests := fetchTests' |}.

(** The callback of [data.fetchTests.map]. *)
Definition test_card (t : FetchTestResult) (index : nat) : node :=
  Element "div" (Some index) "border border-gray-600 rounded-lg p-4"
    [card_header t;
     Element "div" None "grid grid-cols-1 md:grid-cols-2 gap-2 text-sm"
       [js_and (optional_number (statusCode t))
          (labelled "text-gray-300" "Status Code:" (optional_number (statusCode t)));
        js_and (optional_string (proxyUsed t))
          (labelled "text-gray-300" "Proxy Used:" (optional_string (proxyUsed t)));
        js_and (optional_string (cacheInfo t))
          (labelled "text-blue-400" "Cache Info:" (optional_string (cacheInfo t)));
        js_and (optional_string (error t))
          (labelled "text-red-400 col-span-full" "Error:" (optional_string (error t)));
        js_and (optional_value (data t))
          (labelled "text-green-400 col-span-full" "Data:" (optional_value (data t)))]].

(** [<li>• <strong>head</strong> tail</li>] *)
Definition note (head tail : string) : node :=
  Element "li" None ""
    [Text "• "; Element "strong" None "" [Text head]; Text tail].

Definition ISRPage : M DemoLayout :=
  data <- getISRData ;;
  let codeExample :=
"// app/isr/page.tsx - ISR + Fetch Proxy Testing
export const revalidate = 10 // page-level revalidation

export default async function ISRPage() {
  // Test 1: ISR cached fetch (respects cache, tests proxy on miss)
  const response1 = await fetch('https://httpbin.org/uuid', {
    next: { revalidate: 10 } // Same as page revalidation
  })
  
  // Test 2: No-cache fetch (always fresh, tests proxy)
  const response2 = await fetch('https://httpbin.org/ip', {
    cache: 'no-store' // Force fresh request
  })
  
  // Test 3: Slow endpoint (proxy fallback with caching)
  const response3 = await fetch('https://httpbin.org/delay/1', {
    next: { revalidate: 10 }
  })
  
  // Test 4: Error handling with ISR
  const response4 = await fetch('https://httpbin.org/status/500', {
    next: { revalidate: 5 }
  })
  
  return <div>ISR + Fetch Proxy Test Results</div>
}" in
  let isrData :=
    [("Page Build Time", Str (buildTime data), "text-blue-400");
     ("Cache Status", Str (cacheStatus data), "text-green-400");
     ("Fetch Tests Count", Num (length_number (fetchTests data)), "text-yellow-400")] in
  let isrFeatures :=
    [("ISR + Proxy Integration", "Tests how fetch proxy works with ISR caching mechanisms");
     ("Cache Miss Handling", "Validates proxy behavior when ISR cache expires");
     ("Error Caching", "Tests whether error responses are cached in ISR");
     ("Revalidation Timing", "Ensures proxy requests respect ISR revalidation intervals")] in
  ret {| title := "ISR + Fetch Proxy Test";
         subtitle := "Static generation with timed updates, enhanced with fetch proxy functionality testing.";
         description := "This page combines ISR caching with fetch proxy testing to validate how proxy behavior interacts with Next.js caching mechanisms and revalidation strategies.";
         codeExample := codeExample;
         renderMode := "ISR";
         dataDisplay :=
           Element "div" None "space-y-6"
             [DataDisplay "ISR: Incremental Static Regeneration + Fetch Proxy"
                "ISR caching behavior combined with fetch proxy testing"
                isrData isrFeatures;
              Element "div" None "bg-gray-800 rounded-lg p-6"
                [Element "h3" None "text-xl font-semibold text-white mb-4"
                   [Text "ISR + Fetch Proxy Test Results"];
                 Element "div" None "space-y-4"
                   (map (fun '(index, t) => test_card t index)
                        (combine (seq 0 (length (fetchTests data))) (fetchTests data)));
                 Element "div" None "mt-4 p-4 bg-gray-700 rounded-lg"
                   [Element "h4" None "text-lg font-medium text-white mb-2"
                      [Text "ISR Behavior Notes"];
                    Element "ul" None "text-sm text-gray-300 space-y-1"
                      [note "Development:" " ISR revalidates on every request for debugging";
                       note "Production:" " True caching behavior with 10-second intervals";
                       note "Proxy Integration:" " Fetch proxy works seamlessly with ISR caching";
                       note "Error Handling:" " Network errors may trigger proxy fallback even with cache"]]]] |}.
End GetISRData.
End ISR.


(* ================================================================= *)
(** ** Running a page *)

Inductive page : Type := SSR_page | ISR_page.

(** The data function of a page run from the empty log: the array it
    returns and the final state. *)
Definition run_page (p : page) (env : Env)
  : completion (list FetchTestResult) * State :=
  match p with
  | SSR_page => (data <- SSR.getSSRData env ;; ret (SSR.fetchTests data)) start
  | ISR_page => (data <- ISR.getISRData env ;; ret (ISR.fetchTests data)) start
  end.

(** The [fetchTests] array a page hands to its view, and the outbound calls
    it made, in order. *)
Definition records (p : page) (env : Env) : list FetchTestResult :=
  match fst (run_page p env) with
  | Normal l => l
  | Throws _ => []
  end.

Definition calls (p : page) (env : Env) : list Request :=
  sent (snd (run_page p env)).

(** The page function itself, run from the empty log. *)
Definition render (p : page) (env : Env) : completion DemoLayout * State :=
  match p with
  | SSR_page => SSR.SSRPage env start
  | ISR_page => ISR.ISRPage env start
  end.

(** The page function of a page, from any state. *)
Definition page_function (p : page) (env : Env) : M DemoLayout :=
  match p with
  | SSR_page => SSR.SSRPage env
  | ISR_page => ISR.ISRPage env
  end.

(** The four test cases of a page, in source order. *)
Definition test_cases (p : page) : list (Env -> M unit) :=
  match p with
  | SSR_page => [SSR.test1; SSR.test2; SSR.test3; SSR.test4]
  | ISR_page => [ISR.test1; ISR.test2; ISR.test3; ISR.test4]
  end.


(** An environment in which every call is answered by [o]; the rest of the
    platform is that of [env]. *)
Definition answering (env : Env) (o : completion Response.t) : Env :=
  {| net := fun _ _ => o;
     JSON_stringify := JSON_stringify env;
     Number_toString := Number_toString env;
     Date_toISOString := Date_toISOString env;
     Date_now := Date_now env;
     random_below_1000 := random_below_1000 env;
     random_base36 := random_base36 env |}.

(** What one test case leaves in the array when it runs alone and its call
    is answered by [o]. *)
Definition alone (block : Env -> M unit) (env : Env) (o : completion Response.t)
  : list FetchTestResult :=
  tests (snd (block (answering env o) start)).

(** The five status strings of the data model. *)
Definition statuses : list string :=
  ["SUCCESS"; "HTTP_ERROR"; "NETWORK_ERROR"; "EXPECTED_ERROR"; "UNEXPECTED_SUCCESS"].

(** The hardcoded proxy guesses. *)
Definition guesses : list string :=
  ["unknown"; "likely_proxy"; "definitely_proxy"; "proxy_attempted"].

(** The fixed endpoints of a page, in source order. *)
Definition endpoints (p : page) : list string :=
  match p with
  | SSR_page =>
      ["https://httpbin.org/json"; "https://httpbin.org/delay/2";
       "https://non-existent-domain-12345.com/api/test"; "https://httpbin.org/post"]
  | ISR_page =>
      ["https://httpbin.org/uuid"; "https://httpbin.org/ip";
       "https://httpbin.org/delay/1"; "https://httpbin.org/status/500"]
  end.

(** A test case makes exactly one call, to [endpoint], appends exactly one
    record and completes normally; the record is the one it leaves when run
    alone against the same answer. *)
Definition one_call_one_record (env : Env) (block : Env -> M unit)
  (endpoint : string) : Prop :=
  forall s, exists q r,
    block env s =
      (Normal tt, {| sent := (sent s ++ [q])%list; tests := (tests s ++ [r])%list |})
    /\ url q = endpoint
    /\ alone block env (net env (length (sent s)) q) = [r].

(** Whether the [i]-th test case of a page branches on [response.ok] and
    reads the body when it holds.  All do but the non-existent-domain probe
    of the SSR page and the error endpoint of the ISR page, which record
    any response the same way. *)
Definition checks_ok (p : page) (i : nat) : bool :=
  match p, i with
  | SSR_page, 2 => false
  | ISR_page, 3 => false
  | _, _ => true
  end.

(** The [proxyUsed] field the catch block of the [i]-th test case writes. *)
Definition catch_guess (p : page) (i : nat) : option string :=
  match p, i with
  | SSR_page, 1 => Some "likely_proxy"
  | SSR_page, 2 => Some "proxy_attempted"
  | SSR_page, _ => None
  | ISR_page, 0 => Some "likely_proxy"
  | ISR_page, 1 => Some "likely_proxy"
  | ISR_page, _ => Some "proxy_attempted"
  end.

(** The [i]-th call of a page throws [e]: [fetch] rejects, or the test case
    goes on to read the body and [response.json()] rejects. *)
Inductive throws_at (env : Env) (p : page) (i : nat) (req : Request) (e : thrown)
  : Prop :=
| fetch_rejects :
    net env i req = Throws e -> throws_at env p i req e
| body_read_rejects (resp : Response.t) :
    net env i req = Normal resp ->
    checks_ok p i = true ->
    Response.ok resp = true ->
    Response.json resp = Throws e ->
    throws_at env p i req e.

(** The cards of the results panel of a rendered page. *)
Definition cards (view : DemoLayout) : list node :=
  match dataDisplay view with
  | Element _ _ _ [_; Element _ _ _ (_ :: Element _ _ _ cs :: _)] => cs
  | _ => []
  end.

(* ================================================================= *)
(** ** Concrete environments *)

(** A sample platform for the worked examples.  Integral numbers below
    1e21 in magnitude print in decimal, as Number::toString prints them,
    the infinities and [NaN] by their names; the other numbers, which no
    example meets, print as [#].  [JSON.stringify] is as the platform
    writes a value whose strings need no escape. *)
Definition integer_of (n : number) : option Z :=
  match Prim2SF n with
  | S754_zero _ => Some 0%Z
  | S754_finite s m e =>
      let magnitude :=
        if (0 <=? e)%Z then Some (Z.pos m * 2 ^ e)%Z
        else if (Z.pos m mod 2 ^ (- e) =? 0)%Z then Some (Z.pos m / 2 ^ (- e))%Z
        else None in
      option_map (fun z => if s then (- z)%Z else z) magnitude
  | _ => None
  end.

Definition sample_toString (n : number) : string :=
  match integer_of n with
  | Some z =>
      if (Z.abs z <? 10 ^ 21)%Z then NilZero.string_of_int (Z.to_int z) else "#"
  | None =>
      match Prim2SF n with
      | S754_nan => "NaN"
      | S754_infinity false => "Infinity"
      | S754_infinity true => "-Infinity"
      | _ => "#"
      end
  end.

Definition quote : string := String (ascii_of_nat 34) EmptyString.

Fixpoint sample_stringify (j : json) : string :=
  match j with
  | JNull => "null"
  | JBool true => "true"
  | JBool false => "false"
  | JNum n => sample_toString n
  | JStr s => quote ++ s ++ quote
  | JArr items =>
      "[" ++ (fix elements (l : list json) : string :=
                match l with
                | [] => ""
                | [x] => sample_stringify x
                | x :: rest => sample_stringify x ++ "," ++ elements rest
                end) items ++ "]"
  | JObj props =>
      "{" ++ (fix members (l : list (string * json)) : string :=
                match l with
                | [] => ""
                | [(k, v)] => quote ++ k ++ quote ++ ":" ++ sample_stringify v
                | (k, v) :: rest =>
                    quote ++ k ++ quote ++ ":" ++ sample_stringify v ++ "," ++ members rest
                end) props ++ "}"
  end.

(** The sample platform with a network that answers every call by [o]. *)
Definition replying (o : completion Response.t) : Env :=
  {| net := fun _ _ => o;
     JSON_stringify := sample_stringify;
     Number_toString := sample_toString;
     Date_toISOString := fun _ => "2025-01-01T00:00:00.000Z";
     Date_now := fun _ => 1735689600000%float;
     random_below_1000 := 417%float;
     random_base36 := "k3x9p" |}.

(** A response with status [code] whose body parses to [body]. *)
Definition response_of (okay : bool) (code : number) (proxy : option string)
  (body : completion json) : Response.t :=
  {| Response.ok := okay;
     Response.status := code;
     Response.headers_get := fun name =>
       if String.eqb name "oe-proxy-used" then proxy else None;
     Response.json := body |}.

(** Every call answered [200 OK] with the body [{}]. *)
Definition all_ok : Env :=
  replying (Normal (response_of true 200%float None (Normal (JObj [])))).

(** Every call answered [404 Not Found]. *)
Definition all_404 : Env :=
  replying (Normal (response_of false 404%float None (Normal (JObj [])))).

(** Every call answered [200 OK] through the proxy, with the body [null]. *)
Definition all_null : Env :=
  replying (Normal (response_of true 200%float (Some "true") (Normal JNull))).

(** Every call rejected with [TypeError: fetch failed]. *)
Definition offline : Env :=
  replying (Throws (ErrorInstance "fetch failed")).

(** Every call rejected with an [Error] whose message is empty. *)
Definition silent : Env :=
  replying (Throws (ErrorInstance "")).

(** Every call answered [200 OK] with a body that is no JSON text, so that
    [response.json()] rejects. *)
Definition all_garbled : Env :=
  replying (Normal (response_of true 200%float None
                      (Throws (ErrorInstance "Unexpected end of JSON input")))).

(* ================================================================= *)
(** ** Requests, labels and cards *)

(** [env] with the network replaced by [n]. *)
Definition with_net (env : Env) (n : nat -> Request -> completion Response.t)
  : Env :=
  {| net := n;
     JSON_stringify := JSON_stringify env;
     Number_toString := Number_toString env;
     Date_toISOString := Date_toISOString env;
     Date_now := Date_now env;
     random_below_1000 := random_below_1000 env;
     random_base36 := random_base36 env |}.

(** The call a test case makes, read off a run in which the call is
    rejected. *)
Definition request_of (block : Env -> M unit) (env : Env) : list Request :=
  sent (snd (block (answering env (Throws (NonError ""))) start)).

(** The [test] labels of a page, in source order. *)
Definition labels (p : page) : list string :=
  match p with
  | SSR_page => ["Normal Fetch"; "Timeout Test"; "Non-existent Domain"; "POST Request"]
  | ISR_page => ["ISR Cached Fetch"; "No-Cache Fetch"; "Slow Endpoint"; "Error Endpoint"]
  end.

(** [export const revalidate = 10] of the ISR module. *)
Definition revalidate : number := 10%float.

(** The card callback of a page. *)
Definition card_of (p : page) : FetchTestResult -> nat -> node :=
  match p with
  | SSR_page => SSR.test_card
  | ISR_page => ISR.test_card
  end.

(** The key of a card, its badge (class and text) and the children of its
    grid. *)
Definition card_key (card : node) : option nat :=
  match card with
  | Element _ key _ _ => key
  | _ => None
  end.

Definition card_badge (card : node) : option (string * value) :=
  match card with
  | Element _ _ _ (Element _ _ _ [_; Element _ _ c [Expr v]] :: _) => Some (c, v)
  | _ => None
  end.

Definition card_title (card : node) : option value :=
  match card with
  | Element _ _ _ (Element _ _ _ (Element _ _ _ [Expr v] :: _) :: _) => Some v
  | _ => None
  end.

Definition card_rows (card : node) : list node :=
  match card with
  | Element _ _ _ [_; Element _ _ _ rows] => rows
  | _ => []
  end.

(** The card shows the row [label] with the value [v]; the card has a row
    [label]. *)
Definition shows (card : node) (label : string) (v : value) : Prop :=
  exists c, In (labelled c label v) (card_rows card).

Definition has_row (card : node) (label : string) : Prop :=
  exists v, shows card label v.

(** The [data] prop of the [DataDisplay] of a rendered page. *)
Definition summary (view : DemoLayout) : list (string * value * string) :=
  match dataDisplay view with
  | Element _ _ _ (DataDisplay _ _ rows _ :: _) => rows
  | _ => []
  end.

(** The class of a badge without a colour of its own. *)
Definition gray_badge : string :=
  "px-2 py-1 rounded text-sm font-medium bg-gray-600 text-white".

(** The property a test case reads off the parsed body, if it reads one. *)
Definition property_read (p : page) (i : nat) : option string :=
  match p, i with
  | SSR_page, 3 => Some "json"
  | ISR_page, 0 => Some "uuid"
  | ISR_page, 1 => Some "origin"
  | _, _ => None
  end.

(** The fields a card of a page lists, each with the label of its row, in
    the order of the grid. *)
Definition card_fields (p : page) (t : FetchTestResult) : list (string * value) :=
  match p with
  | SSR_page =>
      [("Status Code:", optional_number (statusCode t));
       ("Proxy Used:", optional_string (proxyUsed t));
       ("Error:", optional_string (error t));
       ("Data:", optional_value (data t))]
  | ISR_page =>
      [("Status Code:", optional_number (statusCode t));
       ("Proxy Used:", optional_string (proxyUsed t));
       ("Cache Info:", optional_string (cacheInfo t));
       ("Error:", optional_string (error t));
       ("Data:", optional_value (data t))]
  end.

(** The object the fourth SSR call posts. *)
Definition posted (env : Env) : json :=
  JObj [("test", JStr "SSR Fetch Proxy Test");
        ("timestamp", JNum (Date_now env 1));
        ("source", JStr "NextJS SSR Page")].

(** [a <= b] on numbers. *)
Definition number_le (a b : number) : bool := PrimFloat.leb a b.

(* ================================================================= *)
(** ** Rendering the element tree *)






(** The euro sign, one code unit in three bytes, and [n] copies of a
    string. *)
Definition euro_sign : string :=
  String (ascii_of_N 226) (String (ascii_of_N 130) (String (ascii_of_N 172) "")).

Fixpoint copies (n : nat) (s : string) : string :=
  match n with
  | 0 => ""
  | S k => s ++ copies k s
  end.

(* ================================================================= *)
(** ** Proof automation *)

Arguments SSR.post_data : simpl never.
Arguments ISR.uuid_data : simpl never.
Arguments ISR.origin_data : simpl never.

(** [post_data] reads the number printer of the platform only. *)
Ltac fold_post_data :=
  change (SSR.post_data (answering ?e ?o) ?v) with (SSR.post_data e v).

Ltac fold_post_data_in A :=
  change (SSR.post_data (answering ?e ?o) ?v) with (SSR.post_data e v) in A.

Ltac case_split :=
  repeat match goal with
         | |- context [match ?x with _ => _ end] =>
             lazymatch x with
             | context [match _ with _ => _ end] => fail
             | _ => destruct x eqn:?; cbn
             end
         end.

Ltac run_block :=
  intros s; unfold alone, try_catch, bind, fetch, await, push; cbn;
  case_split; do 2 eexists;
  (split; [reflexivity | split; [reflexivity | ]]);
  repeat (first [ progress fold_post_data
                | match goal with H : _ = _ |- _ => rewrite H end ]; cbn);
  reflexivity.

(** One more test case in the sequence, from its lemma [L]. *)
Ltac next_block L env s q r E U A :=
  destruct (L env s) as (q & r & E & U & A);
  cbn [sent tests app length] in E, A.

(** Unfolding of a test case run alone, for a hypothesis [A]. *)
Ltac unfold_alone A :=
  unfold alone, SSR.test1, SSR.test2, SSR.test3, SSR.test4,
    ISR.test1, ISR.test2, ISR.test3, ISR.test4,
    try_catch, bind, fetch, await, push in A;
  cbn in A; try fold_post_data_in A.

Ltac case_split_in A :=
  repeat match type of A with
         | context [match ?x with _ => _ end] =>
             lazymatch x with
             | context [match _ with _ => _ end] => fail
             | _ => destruct x eqn:?; cbn in A
             end
         end.

(** The test case at a known position. *)
Ltac pick_case p i Hb :=
  destruct p; destruct i as [|[|[|[|i]]]];
  cbn [nth_error test_cases] in Hb;
  try (destruct i; discriminate);
  injection Hb as <-.

(* ================================================================= *)
(** ** Code units *)

Lemma high_surrogate_units a b c d : code_units (high_surrogate a b c d) = 1.
Proof. reflexivity. Qed.

Lemma code_units_first_bounded k :
  forall s, String.length s <= k ->
  forall n, code_units (first_code_units n s) = Nat.min n (code_units s).
Proof.
  induction k as [|k IH]; intros s Hl n.
  - destruct s; [destruct n; reflexivity | cbn in Hl; lia].
  - destruct s as [|a rest]; [destruct n; reflexivity|].
    destruct n as [|m]; [reflexivity|].
    cbn [String.length] in Hl.
    cbn [first_code_units code_units].
    destruct (width_of a) eqn:W.
    + cbn [code_units]. rewrite W, IH by lia. lia.
    + destruct rest as [|b r]; cbn [code_units]; rewrite W; [lia|].
      cbn [String.length] in Hl. rewrite IH by lia. lia.
    + destruct rest as [|b [|c r]]; cbn [code_units]; rewrite W; try lia.
      cbn [String.length] in Hl. rewrite IH by lia. lia.
    + destruct rest as [|b [|c [|d r]]]; cbn [code_units]; rewrite ?W; try lia.
      cbn [String.length] in Hl.
      destruct m as [|j]; [rewrite high_surrogate_units; lia|].
      cbn [code_units]. rewrite W, IH by lia. lia.
Qed.

Lemma first_code_units_all_bounded k :
  forall s, String.length s <= k ->
  forall n, code_units s <= n -> first_code_units n s = s.
Proof.
  induction k as [|k IH]; intros s Hl n Hn.
  - destruct s; [destruct n; reflexivity | cbn in Hl; lia].
  - destruct s as [|a rest]; [destruct n; reflexivity|].
    cbn [String.length] in Hl.
    cbn [code_units] in Hn.
    destruct n as [|m].
    { destruct (width_of a); destruct rest as [|b [|c [|d r]]]; lia. }
    cbn [first_code_units].
    destruct (width_of a) eqn:W.
    + rewrite IH by lia. reflexivity.
    + destruct rest as [|b r]; [reflexivity|].
      cbn [String.length] in Hl. rewrite IH by lia. reflexivity.
    + destruct rest as [|b [|c r]]; try reflexivity.
      cbn [String.length] in Hl. rewrite IH by lia. reflexivity.
    + destruct rest as [|b [|c [|d r]]]; try reflexivity.
      cbn [String.length] in Hl.
      destruct m as [|j]; [lia|].
      rewrite IH by lia. reflexivity.
Qed.

Lemma code_units_first n s :
  code_units (first_code_units n s) = Nat.min n (code_units s).
Proof. apply (code_units_first_bounded (String.length s)). lia. Qed.

Lemma first_code_units_all n s :
  code_units s <= n -> first_code_units n s = s.
Proof. apply (first_code_units_all_bounded (String.length s)). lia. Qed.

Arguments first_code_units : simpl never.
Arguments code_units : simpl never.

(* ================================================================= *)
(** ** One test case at a time *)

(** A property read raises only on [null]. *)
Lemma property_read_of_non_null body name :
  body <> JNull -> exists d, get_property (Json body) name = Normal d.
Proof.
  intros Hb. destruct body; cbn; try (eexists; reflexivity).
  - contradiction.
  - destruct (lookup name props); eexists; reflexivity.
Qed.

Lemma ssr_test1_runs env :
  one_call_one_record env SSR.test1 "https://httpbin.org/json".
Proof. unfold SSR.test1. run_block. Qed.

Lemma ssr_test2_runs env :
  one_call_one_record env SSR.test2 "https://httpbin.org/delay/2".
Proof. unfold SSR.test2. run_block. Qed.

Lemma ssr_test3_runs env :
  one_call_one_record env SSR.test3 "https://non-existent-domain-12345.com/api/test".
Proof. unfold SSR.test3. run_block. Qed.

Lemma ssr_test4_runs env :
  one_call_one_record env SSR.test4 "https://httpbin.org/post".
Proof. unfold SSR.test4. run_block. Qed.

Lemma isr_test1_runs env :
  one_call_one_record env ISR.test1 "https://httpbin.org/uuid".
Proof. unfold ISR.test1. run_block. Qed.

Lemma isr_test2_runs env :
  one_call_one_record env ISR.test2 "https://httpbin.org/ip".
Proof. unfold ISR.test2. run_block. Qed.

Lemma isr_test3_runs env :
  one_call_one_record env ISR.test3 "https://httpbin.org/delay/1".
Proof. unfold ISR.test3. run_block. Qed.

Lemma isr_test4_runs env :
  one_call_one_record env ISR.test4 "https://httpbin.org/status/500".
Proof. unfold ISR.test4. run_block. Qed.

(* ================================================================= *)
(** ** The four test cases in sequence *)


Lemma ssr_runs env :
  exists q0 q1 q2 q3 r0 r1 r2 r3,
    run_page SSR_page env =
      (Normal [r0; r1; r2; r3],
       {| sent := [q0; q1; q2; q3]; tests := [r0; r1; r2; r3] |})
    /\ map url [q0; q1; q2; q3] = endpoints SSR_page
    /\ alone SSR.test1 env (net env 0 q0) = [r0]
    /\ alone SSR.test2 env (net env 1 q1) = [r1]
    /\ alone SSR.test3 env (net env 2 q2) = [r2]
    /\ alone SSR.test4 env (net env 3 q3) = [r3].
Proof.
  next_block ssr_test1_runs env {| sent := []; tests := [] |} q0 r0 E0 U0 A0.
  next_block ssr_test2_runs env {| sent := [q0]; tests := [r0] |} q1 r1 E1 U1 A1.
  next_block ssr_test3_runs env {| sent := [q0; q1]; tests := [r0; r1] |} q2 r2 E2 U2 A2.
  next_block ssr_test4_runs env {| sent := [q0; q1; q2]; tests := [r0; r1; r2] |}
    q3 r3 E3 U3 A3.
  exists q0, q1, q2, q3, r0, r1, r2, r3.
  unfold run_page, SSR.getSSRData, bind, new_fetchTests, read_fetchTests, ret, start.
  cbn [sent tests].
  rewrite E0, E1, E2, E3.
  cbn [map SSR.fetchTests endpoints]. rewrite U0, U1, U2, U3.
  repeat split; assumption.
Qed.

Lemma isr_runs env :
  exists q0 q1 q2 q3 r0 r1 r2 r3,
    run_page ISR_page env =
      (Normal [r0; r1; r2; r3],
       {| sent := [q0; q1; q2; q3]; tests := [r0; r1; r2; r3] |})
    /\ map url [q0; q1; q2; q3] = endpoints ISR_page
    /\ alone ISR.test1 env (net env 0 q0) = [r0]
    /\ alone ISR.test2 env (net env 1 q1) = [r1]
    /\ alone ISR.test3 env (net env 2 q2) = [r2]
    /\ alone ISR.test4 env (net env 3 q3) = [r3].
Proof.
  next_block isr_test1_runs env {| sent := []; tests := [] |} q0 r0 E0 U0 A0.
  next_block isr_test2_runs env {| sent := [q0]; tests := [r0] |} q1 r1 E1 U1 A1.
  next_block isr_test3_runs env {| sent := [q0; q1]; tests := [r0; r1] |} q2 r2 E2 U2 A2.
  next_block isr_test4_runs env {| sent := [q0; q1; q2]; tests := [r0; r1; r2] |}
    q3 r3 E3 U3 A3.
  exists q0, q1, q2, q3, r0, r1, r2, r3.
  unfold run_page, ISR.getISRData, bind, new_fetchTests, read_fetchTests, ret, start.
  cbn [sent tests].
  rewrite E0, E1, E2, E3.
  cbn [map ISR.fetchTests endpoints]. rewrite U0, U1, U2, U3.
  repeat split; assumption.
Qed.

(** The [i]-th record of a page is what its [i]-th test case leaves when
    run alone against the answer to the [i]-th call. *)
Lemma record_of_call p env i block :
  nth_error (test_cases p) i = Some block ->
  exists q r,
    nth_error (calls p env) i = Some q
    /\ nth_error (records p env) i = Some r
    /\ alone block env (net env i q) = [r].
Proof.
  intros Hb. unfold calls, records.
  destruct p;
    [ destruct (ssr_runs env) as (q0 & q1 & q2 & q3 & r0 & r1 & r2 & r3 & E & _ & A0 & A1 & A2 & A3)
    | destruct (isr_runs env) as (q0 & q1 & q2 & q3 & r0 & r1 & r2 & r3 & E & _ & A0 & A1 & A2 & A3) ];
    rewrite E; cbn [fst snd sent];
    destruct i as [|[|[|[|i]]]]; cbn [nth_error test_cases] in Hb;
    try (destruct i; discriminate);
    injection Hb as <-; cbn [nth_error]; eauto.
Qed.

Lemma four_calls_four_records p env :
  length (calls p env) = 4 /\ length (records p env) = 4.
Proof.
  unfold calls, records.
  destruct p;
    [ destruct (ssr_runs env) as (q0 & q1 & q2 & q3 & r0 & r1 & r2 & r3 & E & _)
    | destruct (isr_runs env) as (q0 & q1 & q2 & q3 & r0 & r1 & r2 & r3 & E & _) ];
    rewrite E; split; reflexivity.
Qed.

Lemma test_case_at p i :
  i < 4 -> exists block, nth_error (test_cases p) i = Some block.
Proof.
  intros Hi. destruct p; destruct i as [|[|[|[|i]]]]; cbn; eauto; lia.
Qed.

(** From a call to its record, and back. *)
Lemma record_of_request p env i req :
  nth_error (calls p env) i = Some req ->
  exists block r,
    nth_error (test_cases p) i = Some block
    /\ nth_error (records p env) i = Some r
    /\ alone block env (net env i req) = [r].
Proof.
  intros Hq.
  assert (Hi : i < 4).
  { rewrite <- (proj1 (four_calls_four_records p env)).
    apply nth_error_Some. congruence. }
  destruct (test_case_at p i Hi) as [block Hb].
  destruct (record_of_call p env i block Hb) as (q & r & Hq' & Hr & A).
  assert (q = req) by congruence. subst q. eauto.
Qed.

Lemma request_of_record p env i r :
  nth_error (records p env) i = Some r ->
  exists block req,
    nth_error (test_cases p) i = Some block
    /\ nth_error (calls p env) i = Some req
    /\ alone block env (net env i req) = [r].
Proof.
  intros Hr.
  assert (Hi : i < 4).
  { rewrite <- (proj2 (four_calls_four_records p env)).
    apply nth_error_Some. congruence. }
  destruct (test_case_at p i Hi) as [block Hb].
  destruct (record_of_call p env i block Hb) as (q & r' & Hq & Hr' & A).
  assert (r' = r) by congruence. subst r'. eauto.
Qed.


(* ================================================================= *)
(** ** Records of calls that complete *)




(** A parsed body [null] makes the property read of the POST test case
    raise a [TypeError] inside the [try] block, and the catch block records
    it: the call completed with [200 OK] and the record is a
    [NETWORK_ERROR]. *)
Example null_body_is_caught :
  nth_error (records SSR_page all_null) 3 =
    Some {| test := "POST Request"; status := "NETWORK_ERROR";
            statusCode := None; proxyUsed := None;
            error := Some "Cannot read properties of null (reading 'json')";
            data := None; cacheInfo := None |}.
Proof. vm_compute. reflexivity. Qed.

(** C2, as the code has it.  When the fetch of a call resolves with a
    response that is not [ok], the record of the call carries the
    response's status code and its status is [HTTP_ERROR], except for the
    non-existent-domain probe of the SSR page, which records
    [UNEXPECTED_SUCCESS] for any response. *)
Theorem failed_response_record p env i req resp :
  nth_error (calls p env) i = Some req ->
  net env i req = Normal resp ->
  Response.ok resp = false ->
  exists r,
    nth_error (records p env) i = Some r
    /\ statusCode r = Some (Response.status resp)
    /\ status r =
         match p, i with
         | SSR_page, 2 => "UNEXPECTED_SUCCESS"
         | _, _ => "HTTP_ERROR"
         end.
Proof.
  intros Hq Hnet Hok.
  destruct (record_of_request p env i req Hq) as (block & r & Hb & Hr & A).
  exists r. split; [exact Hr|]. clear Hr Hq.
  rewrite Hnet in A.
  pick_case p i Hb; unfold_alone A; rewrite ?Hok in A; cbn in A;
    injection A as <-; split; reflexivity.
Qed.

Lemma failed_response_record_witness :
  exists r,
    nth_error (records ISR_page all_404) 1 = Some r
    /\ statusCode r = Some 404%float
    /\ status r = "HTTP_ERROR".
Proof.
  exact (failed_response_record ISR_page all_404 1 _ _ eq_refl eq_refl eq_refl).
Defined.

(** C2 as stated fails: with every call answered [404], the third call of
    the SSR page completes with a response that is not [ok] and its record
    has status [UNEXPECTED_SUCCESS]. *)
Lemma failed_response_without_http_error :
  exists req resp r,
    nth_error (calls SSR_page all_404) 2 = Some req
    /\ net all_404 2 req = Normal resp
    /\ Response.ok resp = false
    /\ nth_error (records SSR_page all_404) 2 = Some r
    /\ status r = "UNEXPECTED_SUCCESS"
    /\ status r <> "HTTP_ERROR".
Proof.
  do 3 eexists.
  split; [vm_compute; reflexivity|].
  split; [reflexivity|].
  split; [reflexivity|].
  split; [vm_compute; reflexivity|].
  split; [reflexivity | discriminate].
Qed.

(* ================================================================= *)
(** ** Records of calls that throw *)

(** What the catch block of the [i]-th test case records for [e]. *)
Lemma caught_record p env i req e r block :
  nth_error (test_cases p) i = Some block ->
  throws_at env p i req e ->
  alone block env (net env i req) = [r] ->
  r = {| test := test r;
         status := match p, i with
                   | SSR_page, 2 => "EXPECTED_ERROR"
                   | _, _ => "NETWORK_ERROR"
                   end;
         statusCode := None;
         proxyUsed := catch_guess p i;
         error := Some (error_text e);
         data := None;
         cacheInfo := None |}.
Proof.
  intros Hb Ht A.
  destruct Ht as [Hnet | resp Hnet Hchecks Hok Hjson]; rewrite Hnet in A.
  - pick_case p i Hb; unfold_alone A; injection A as <-; reflexivity.
  - pick_case p i Hb; cbn in Hchecks; try discriminate Hchecks;
      unfold_alone A; rewrite ?Hok in A; cbn in A; rewrite ?Hjson in A; cbn in A;
      injection A as <-; reflexivity.
Qed.

(** C3, as the code has it.  When the fetch of a call, or the body read
    that follows it, throws, the record of the call has status
    [NETWORK_ERROR] - [EXPECTED_ERROR] for the non-existent-domain probe of
    the SSR page - and its error field is the text of the exception (its
    message, or [String(error)] for a value that is no [Error]); the field
    is non-empty whenever that text is. *)
Theorem thrown_call_record p env i req e :
  nth_error (calls p env) i = Some req ->
  throws_at env p i req e ->
  exists r,
    nth_error (records p env) i = Some r
    /\ status r =
         match p, i with
         | SSR_page, 2 => "EXPECTED_ERROR"
         | _, _ => "NETWORK_ERROR"
         end
    /\ error r = Some (error_text e)
    /\ (error_text e <> "" -> exists text, error r = Some text /\ text <> "").
Proof.
  intros Hq Ht.
  destruct (record_of_request p env i req Hq) as (block & r & Hb & Hr & A).
  exists r. split; [exact Hr|].
  rewrite (caught_record p env i req e r block Hb Ht A). cbn [status error].
  split; [reflexivity|]. split; [reflexivity|].
  intros Hne. exists (error_text e). split; [reflexivity | exact Hne].
Qed.

Lemma thrown_call_record_witness :
  exists r,
    nth_error (records ISR_page offline) 0 = Some r
    /\ status r = "NETWORK_ERROR"
    /\ error r = Some "fetch failed"
    /\ ("fetch failed" <> "" -> exists text, error r = Some text /\ text <> "").
Proof.
  exact (thrown_call_record ISR_page offline 0 _ (ErrorInstance "fetch failed")
           eq_refl (fetch_rejects offline ISR_page 0 _ _ eq_refl)).
Defined.

(** C3 as stated fails: with every call rejected by an [Error] whose
    message is empty, the third call of the SSR page throws and its record
    has status [EXPECTED_ERROR] and an empty error field. *)
Lemma thrown_call_without_network_error :
  exists req r,
    nth_error (calls SSR_page silent) 2 = Some req
    /\ net silent 2 req = Throws (ErrorInstance "")
    /\ nth_error (records SSR_page silent) 2 = Some r
    /\ status r = "EXPECTED_ERROR"
    /\ status r <> "NETWORK_ERROR"
    /\ error r = Some "".
Proof.
  do 2 eexists.
  split; [vm_compute; reflexivity|].
  split; [reflexivity|].
  split; [vm_compute; reflexivity|].
  split; [reflexivity|].
  split; [discriminate | reflexivity].
Qed.

(** A body read that rejects is caught by the same catch block as a fetch
    that rejects; the error endpoint of the ISR page never reads the
    body. *)
Example garbled_body_is_caught :
  map (fun r => (status r, error r)) (records ISR_page all_garbled) =
    [("NETWORK_ERROR", Some "Unexpected end of JSON input");
     ("NETWORK_ERROR", Some "Unexpected end of JSON input");
     ("NETWORK_ERROR", Some "Unexpected end of JSON input");
     ("HTTP_ERROR", Some "Server returned 200")].
Proof. vm_compute. reflexivity. Qed.

(** C6, as the code has it.  When the fetch of a call, or the body read
    that follows it, throws, the record of the call carries the text of the
    exception in its error field; it carries a hardcoded proxy guess in
    [proxyUsed] for every call but the first and the fourth of the SSR
    page, whose catch blocks leave [proxyUsed] unset. *)
Theorem thrown_call_guess p env i req e :
  nth_error (calls p env) i = Some req ->
  throws_at env p i req e ->
  exists r,
    nth_error (records p env) i = Some r
    /\ error r = Some (error_text e)
    /\ proxyUsed r = catch_guess p i
    /\ match p, i with
       | SSR_page, 0 | SSR_page, 3 => proxyUsed r = None
       | _, _ => exists guess, proxyUsed r = Some guess /\ In guess guesses
       end.
Proof.
  intros Hq Ht.
  destruct (record_of_request p env i req Hq) as (block & r & Hb & Hr & A).
  exists r. split; [exact Hr|].
  rewrite (caught_record p env i req e r block Hb Ht A). cbn [proxyUsed error].
  split; [reflexivity|]. split; [reflexivity|].
  clear - Hb.
  pick_case p i Hb; cbn; try reflexivity; eexists; (split; [reflexivity|]);
    cbn; tauto.
Qed.

Lemma thrown_call_guess_witness :
  exists r,
    nth_error (records SSR_page offline) 1 = Some r
    /\ error r = Some "fetch failed"
    /\ proxyUsed r = Some "likely_proxy"
    /\ exists guess, proxyUsed r = Some guess /\ In guess guesses.
Proof.
  exact (thrown_call_guess SSR_page offline 1 _ (ErrorInstance "fetch failed")
           eq_refl (fetch_rejects offline SSR_page 1 _ _ eq_refl)).
Defined.

(** C6 as stated fails: with every call rejected, the first call of the
    SSR page throws and its record has no [proxyUsed] field. *)
Lemma thrown_call_without_guess :
  exists req r,
    nth_error (calls SSR_page offline) 0 = Some req
    /\ net offline 0 req = Throws (ErrorInstance "fetch failed")
    /\ nth_error (records SSR_page offline) 0 = Some r
    /\ status r = "NETWORK_ERROR"
    /\ error r = Some "fetch failed"
    /\ proxyUsed r = None.
Proof.
  do 2 eexists.
  split; [vm_compute; reflexivity|].
  split; [reflexivity|].
  split; [vm_compute; reflexivity|].
  repeat split.
Qed.

(* ================================================================= *)
(** ** The two kinds of record *)

(** A record is written either by a catch block, and then it has one of
    the two error statuses and neither a status code nor data, or from a
    completed response, and then it has one of the three other statuses and
    the status code of the response. *)
Lemma record_kinds p block env o r :
  In block (test_cases p) ->
  alone block env o = [r] ->
  (In (status r) ["NETWORK_ERROR"; "EXPECTED_ERROR"]
   /\ statusCode r = None /\ data r = None)
  \/ (exists resp fallback,
         o = Normal resp
         /\ In (status r) ["SUCCESS"; "HTTP_ERROR"; "UNEXPECTED_SUCCESS"]
         /\ statusCode r = Some (Response.status resp)
         /\ In fallback ["unknown"; "likely_proxy"]
         /\ (status r = "SUCCESS" ->
             proxyUsed r =
               Some (match Response.headers_get resp "oe-proxy-used" with
                     | Some h => if String.eqb h "" then fallback else h
                     | None => fallback
                     end))).
Proof.
  intros Hin A.
  destruct p; cbn in Hin;
    repeat (destruct Hin as [<- | Hin]); try contradiction;
    unfold_alone A; case_split_in A; injection A as <-; cbn;
    first [ left; repeat split; tauto
          | right; do 2 eexists; split; [reflexivity|];
            split; [tauto|]; split; [reflexivity|];
            first [ split; [left; reflexivity|];
                    first [ discriminate | intros _; reflexivity ]
                  | split; [right; left; reflexivity|];
                    first [ discriminate | intros _; reflexivity ] ] ].
Qed.

Lemma test_case_runs p block env :
  In block (test_cases p) ->
  exists endpoint, one_call_one_record env block endpoint.
Proof.
  intros Hin.
  destruct p; cbn in Hin;
    repeat (destruct Hin as [<- | Hin]); try contradiction; eexists;
    first [ apply ssr_test1_runs | apply ssr_test2_runs | apply ssr_test3_runs
          | apply ssr_test4_runs | apply isr_test1_runs | apply isr_test2_runs
          | apply isr_test3_runs | apply isr_test4_runs ].
Qed.

Lemma data_function_returns p env :
  exists l s, run_page p env = (Normal l, s) /\ length l = 4.
Proof.
  destruct p;
    [ destruct (ssr_runs env) as (q0 & q1 & q2 & q3 & r0 & r1 & r2 & r3 & E & _)
    | destruct (isr_runs env) as (q0 & q1 & q2 & q3 & r0 & r1 & r2 & r3 & E & _) ];
    rewrite E; eauto.
Qed.

Lemma getSSRData_returns env :
  exists data s,
    SSR.getSSRData env start = (Normal data, s)
    /\ length (SSR.fetchTests data) = 4.
Proof.
  destruct (data_function_returns SSR_page env) as (l & s & E & Hl).
  unfold run_page, bind, ret in E.
  destruct (SSR.getSSRData env start) as [[data | e] s']; [|discriminate].
  injection E as <- <-. eauto.
Qed.

Lemma getISRData_returns env :
  exists data s,
    ISR.getISRData env start = (Normal data, s)
    /\ length (ISR.fetchTests data) = 4.
Proof.
  destruct (data_function_returns ISR_page env) as (l & s & E & Hl).
  unfold run_page, bind, ret in E.
  destruct (ISR.getISRData env start) as [[data | e] s']; [|discriminate].
  injection E as <- <-. eauto.
Qed.

(* ================================================================= *)
(** ** The shape of a run *)

(** With every call rejected the SSR page still renders its four cards,
    each showing the caught message. *)
Example offline_page_renders :
  exists view s,
    render SSR_page offline = (Normal view, s)
    /\ map (fun card =>
              match card with
              | Element _ _ _ [_; Element _ _ _ [_; _; shown; _]] => shown
              | _ => Text ""
              end) (cards view)
       = repeat (labelled "text-red-400 col-span-full" "Error:" (Str "fetch failed")) 4.
Proof. do 2 eexists. split; vm_compute; reflexivity. Qed.

(** C7.  Every record of either page has one of the five status strings. *)
Theorem status_is_one_of_five p env :
  Forall (fun r => In (status r) statuses) (records p env)
  /\ length (records p env) = 4.
Proof.
  split; [|apply four_calls_four_records].
  apply Forall_forall. intros r Hin.
  destruct (In_nth_error _ _ Hin) as [i Hi].
  destruct (request_of_record p env i r Hi) as (block & req & Hb & _ & A).
  apply nth_error_In in Hb.
  destruct (record_kinds p block env _ r Hb A)
    as [(Hs & _) | (resp & fallback & _ & Hs & _)];
    cbn in Hs |- *; tauto.
Qed.

(** C9.  A record with status [SUCCESS] was built from a response, and its
    [proxyUsed] field is the [oe-proxy-used] header of that response when
    the header is present and non-empty, and otherwise the hardcoded
    fallback of its test case, [unknown] or [likely_proxy]. *)
Theorem success_record_proxy_field p env i r :
  nth_error (records p env) i = Some r ->
  status r = "SUCCESS" ->
  exists req resp fallback,
    nth_error (calls p env) i = Some req
    /\ net env i req = Normal resp
    /\ In fallback ["unknown"; "likely_proxy"]
    /\ proxyUsed r =
         Some (match Response.headers_get resp "oe-proxy-used" with
               | Some h => if String.eqb h "" then fallback else h
               | None => fallback
               end).
Proof.
  intros Hr Hs.
  destruct (request_of_record p env i r Hr) as (block & req & Hb & Hq & A).
  apply nth_error_In in Hb.
  destruct (record_kinds p block env _ r Hb A)
    as [(Hc & _) | (resp & fallback & Hnet & _ & _ & Hf & Hp)].
  - rewrite Hs in Hc. cbn in Hc.
    destruct Hc as [Hc | [Hc | []]]; discriminate Hc.
  - exists req, resp, fallback. auto.
Qed.

Lemma success_record_proxy_field_witness :
  let r := {| test := "Slow Endpoint"; status := "SUCCESS";
              statusCode := Some 200%float; proxyUsed := Some "true";
              error := None; data := Some (Str "Delayed response received");
              cacheInfo := Some "Cached after successful proxy request" |} in
  exists req resp fallback,
    nth_error (calls ISR_page all_null) 2 = Some req
    /\ net all_null 2 req = Normal resp
    /\ In fallback ["unknown"; "likely_proxy"]
    /\ proxyUsed r =
         Some (match Response.headers_get resp "oe-proxy-used" with
               | Some h => if String.eqb h "" then fallback else h
               | None => fallback
               end).
Proof.
  exact (success_record_proxy_field ISR_page all_null 2 _ eq_refl eq_refl).
Defined.

(** C10.  A record with one of the two statuses a catch block writes has
    neither a status code nor data; a record that has a status code or
    data was built from a response of a completed fetch. *)
Theorem catch_records_have_no_code_and_no_data p env i r :
  nth_error (records p env) i = Some r ->
  (status r = "NETWORK_ERROR" \/ status r = "EXPECTED_ERROR" ->
   statusCode r = None /\ data r = None)
  /\ (forall req e,
         nth_error (calls p env) i = Some req ->
         throws_at env p i req e ->
         In (status r) ["NETWORK_ERROR"; "EXPECTED_ERROR"]
         /\ statusCode r = None /\ data r = None)
  /\ (statusCode r <> None \/ data r <> None ->
      exists req resp,
        nth_error (calls p env) i = Some req /\ net env i req = Normal resp).
Proof.
  intros Hr.
  destruct (request_of_record p env i r Hr) as (block & req & Hb & Hq & A).
  assert (Hcaught : forall req' e,
             nth_error (calls p env) i = Some req' ->
             throws_at env p i req' e ->
             In (status r) ["NETWORK_ERROR"; "EXPECTED_ERROR"]
             /\ statusCode r = None /\ data r = None).
  { intros req' e Hq' Ht.
    assert (req' = req) by congruence. subst req'.
    rewrite (caught_record p env i req e r block Hb Ht A).
    cbn [status statusCode data].
    split; [|split; reflexivity].
    clear - Hb. pick_case p i Hb; cbn; tauto. }
  apply nth_error_In in Hb.
  destruct (record_kinds p block env _ r Hb A)
    as [(_ & Hc & Hd) | (resp & fallback & Hnet & Hs & _)].
  - split; [auto|]. split; [exact Hcaught|]. intros [H | H]; contradiction.
  - split; [|split; [exact Hcaught | eauto]].
    intros [H | H]; rewrite H in Hs; cbn in Hs;
      destruct Hs as [Hs | [Hs | [Hs | []]]]; discriminate Hs.
Qed.

Lemma catch_records_have_no_code_and_no_data_witness :
  let r := {| test := "Non-existent Domain"; status := "EXPECTED_ERROR";
              statusCode := None; proxyUsed := Some "proxy_attempted";
              error := Some "fetch failed"; data := None; cacheInfo := None |} in
  (status r = "NETWORK_ERROR" \/ status r = "EXPECTED_ERROR" ->
   statusCode r = None /\ data r = None)
  /\ (forall req e,
         nth_error (calls SSR_page offline) 2 = Some req ->
         throws_at offline SSR_page 2 req e ->
         In (status r) ["NETWORK_ERROR"; "EXPECTED_ERROR"]
         /\ statusCode r = None /\ data r = None)
  /\ (statusCode r <> None \/ data r <> None ->
      exists req resp,
        nth_error (calls SSR_page offline) 2 = Some req
        /\ net offline 2 req = Normal resp).
Proof.
  exact (catch_records_have_no_code_and_no_data SSR_page offline 2 _ eq_refl).
Defined.

(* ================================================================= *)
(** ** What is requested does not depend on what is answered *)

Ltac unfold_blocks :=
  unfold SSR.test1, SSR.test2, SSR.test3, SSR.test4,
    ISR.test1, ISR.test2, ISR.test3, ISR.test4,
    try_catch, bind, fetch, await, push.

Lemma block_request p block env s :
  In block (test_cases p) ->
  sent (snd (block env s)) = (sent s ++ request_of block env)%list.
Proof.
  intros Hin.
  destruct p; cbn in Hin;
    repeat (destruct Hin as [<- | Hin]); try contradiction;
    unfold request_of; unfold_blocks; cbn; case_split; reflexivity.
Qed.

Lemma block_state p block env s :
  In block (test_cases p) ->
  exists r,
    block env s =
      (Normal tt,
       {| sent := (sent s ++ request_of block env)%list;
          tests := (tests s ++ [r])%list |}).
Proof.
  intros Hin.
  destruct (test_case_runs p block env Hin) as [endpoint H].
  destruct (H s) as (q & r & E & _).
  exists r. rewrite <- (block_request p block env s Hin), E. reflexivity.
Qed.

Ltac step_block p blk env :=
  match goal with
  | |- context [blk env ?s] =>
      let r := fresh "r" in
      let E := fresh "E" in
      destruct (block_state p blk env s) as [r E]; [cbn; tauto|];
      rewrite E; cbv beta iota; cbn [sent tests]
  end.

Lemma calls_are_requests p env :
  calls p env = concat (map (fun block => request_of block env) (test_cases p)).
Proof.
  unfold calls, run_page.
  destruct p; cbn [test_cases map concat];
    unfold SSR.getSSRData, ISR.getISRData, bind, new_fetchTests, read_fetchTests,
      ret, start; cbn [sent tests].
  - step_block SSR_page SSR.test1 env. step_block SSR_page SSR.test2 env.
    step_block SSR_page SSR.test3 env. step_block SSR_page SSR.test4 env.
    cbn [snd sent]. rewrite app_nil_r, <- !app_assoc. reflexivity.
  - step_block ISR_page ISR.test1 env. step_block ISR_page ISR.test2 env.
    step_block ISR_page ISR.test3 env. step_block ISR_page ISR.test4 env.
    cbn [snd sent]. rewrite app_nil_r, <- !app_assoc. reflexivity.
Qed.

(** X1.  The calls a page makes are the same whatever the network
    answers: no answer changes the URL, the options or the number of the
    calls that follow it. *)
Theorem calls_ignore_the_answers p env n :
  calls p (with_net env n) = calls p env
  /\ calls p env = concat (map (fun block => request_of block env) (test_cases p)).
Proof.
  split; [|apply calls_are_requests].
  rewrite !calls_are_requests. reflexivity.
Qed.

(** X2.  The [i]-th record of a page depends on the answer to the [i]-th
    call only: changing the answers to the other calls leaves it as it
    is. *)
Theorem record_depends_on_its_own_answer p env n i :
  (forall req, n i req = net env i req) ->
  nth_error (records p (with_net env n)) i = nth_error (records p env) i.
Proof.
  intros Hn.
  destruct (Nat.lt_ge_cases i 4) as [Hi | Hi].
  - destruct (test_case_at p i Hi) as [block Hb].
    destruct (record_of_call p env i block Hb) as (q & r & Hq & Hr & A).
    destruct (record_of_call p (with_net env n) i block Hb)
      as (q' & r' & Hq' & Hr' & A').
    assert (Hcalls : calls p (with_net env n) = calls p env).
    { rewrite !calls_are_requests. reflexivity. }
    rewrite Hcalls in Hq'. assert (q' = q) by congruence. subst q'.
    change (alone block (with_net env n)) with (alone block env) in A'.
    change (net (with_net env n) i q) with (n i q) in A'.
    rewrite Hn, A in A'. congruence.
  - destruct (four_calls_four_records p env) as [_ L].
    destruct (four_calls_four_records p (with_net env n)) as [_ L'].
    rewrite (proj2 (nth_error_None _ _)) by lia.
    rewrite (proj2 (nth_error_None _ _)) by lia.
    reflexivity.
Qed.

Lemma record_depends_on_its_own_answer_witness :
  nth_error
    (records SSR_page
       (with_net offline
          (fun k _ =>
             if Nat.eqb k 0 then Throws (ErrorInstance "fetch failed")
             else Normal (response_of true 200%float None (Normal (JObj []))))))
    0
  = nth_error (records SSR_page offline) 0.
Proof.
  exact (record_depends_on_its_own_answer SSR_page offline
           (fun k _ =>
              if Nat.eqb k 0 then Throws (ErrorInstance "fetch failed")
              else Normal (response_of true 200%float None (Normal (JObj []))))
           0 (fun _ => eq_refl)).
Defined.

Lemma label_of_alone p i block env o r :
  nth_error (test_cases p) i = Some block ->
  alone block env o = [r] ->
  nth_error (labels p) i = Some (test r).
Proof.
  intros Hb A.
  pick_case p i Hb; unfold_alone A; case_split_in A; injection A as <-;
    reflexivity.
Qed.

(** X3.  The labels of the four records are fixed by position: whatever
    the calls do, the [i]-th record carries the label of the [i]-th test
    case. *)
Theorem labels_are_fixed_by_position p env :
  map test (records p env) = labels p.
Proof.
  unfold records.
  destruct p;
    [ destruct (ssr_runs env)
        as (q0 & q1 & q2 & q3 & r0 & r1 & r2 & r3 & E & _ & A0 & A1 & A2 & A3);
      pose proof (label_of_alone SSR_page 0 _ env _ r0 eq_refl A0) as T0;
      pose proof (label_of_alone SSR_page 1 _ env _ r1 eq_refl A1) as T1;
      pose proof (label_of_alone SSR_page 2 _ env _ r2 eq_refl A2) as T2;
      pose proof (label_of_alone SSR_page 3 _ env _ r3 eq_refl A3) as T3
    | destruct (isr_runs env)
        as (q0 & q1 & q2 & q3 & r0 & r1 & r2 & r3 & E & _ & A0 & A1 & A2 & A3);
      pose proof (label_of_alone ISR_page 0 _ env _ r0 eq_refl A0) as T0;
      pose proof (label_of_alone ISR_page 1 _ env _ r1 eq_refl A1) as T1;
      pose proof (label_of_alone ISR_page 2 _ env _ r2 eq_refl A2) as T2;
      pose proof (label_of_alone ISR_page 3 _ env _ r3 eq_refl A3) as T3 ];
    rewrite E; cbn [fst map labels nth_error] in *;
    injection T0 as <-; injection T1 as <-; injection T2 as <-; injection T3 as <-;
    reflexivity.
Qed.

(* ================================================================= *)
(** ** The data field *)

(** The record of the call at a known position, from the test case run
    alone. *)
Ltac record_at p i env req Hq block r Hb Hr A :=
  destruct (record_of_request p env i req Hq) as (block & r & Hb & Hr & A);
  cbn [nth_error test_cases] in Hb; injection Hb as <-.

(** X4.  The preview of the first SSR call is the first 100 UTF-16 code
    units of the JSON text of the body, or all of it when it has no more,
    always followed by three dots, also when nothing was cut. *)
Theorem normal_fetch_preview env req resp body :
  nth_error (calls SSR_page env) 0 = Some req ->
  net env 0 req = Normal resp ->
  Response.ok resp = true ->
  Response.json resp = Normal body ->
  exists r t,
    nth_error (records SSR_page env) 0 = Some r
    /\ data r = Some (Str (t ++ "..."))
    /\ t = first_code_units 100 (JSON_stringify env body)
    /\ code_units t = Nat.min 100 (code_units (JSON_stringify env body))
    /\ (code_units (JSON_stringify env body) <= 100 -> t = JSON_stringify env body).
Proof.
  intros Hq Hnet Hok Hjson.
  record_at SSR_page 0 env req Hq block r Hb Hr A.
  rewrite Hnet in A. unfold_alone A. rewrite Hok in A. cbn in A.
  rewrite Hjson in A. cbn in A. injection A as <-.
  eexists. exists (first_code_units 100 (JSON_stringify env body)).
  split; [exact Hr|]. split; [reflexivity|]. split; [reflexivity|].
  split; [apply code_units_first | apply first_code_units_all].
Qed.

Lemma normal_fetch_preview_witness :
  exists r t,
    nth_error (records SSR_page all_ok) 0 = Some r
    /\ data r = Some (Str (t ++ "..."))
    /\ t = first_code_units 100 (JSON_stringify all_ok (JObj []))
    /\ code_units t = Nat.min 100 (code_units (JSON_stringify all_ok (JObj [])))
    /\ (code_units (JSON_stringify all_ok (JObj [])) <= 100 ->
        t = JSON_stringify all_ok (JObj [])).
Proof.
  exact (normal_fetch_preview all_ok _ _ _ eq_refl eq_refl eq_refl eq_refl).
Defined.

(** Sixty euro signs are 180 bytes and 60 code units: the cut keeps them
    whole.  A cut between the two code units of a character leaves the
    first of them. *)
Example preview_counts_code_units :
  String.length (copies 60 euro_sign) = 180
  /\ code_units (copies 60 euro_sign) = 60
  /\ first_code_units 100 (copies 60 euro_sign) = copies 60 euro_sign
  /\ code_units (first_code_units 100 (copies 120 euro_sign)) = 100.
Proof. repeat split; vm_compute; reflexivity. Qed.

Lemma post_data_echo env props echoed s :
  lookup "json" props = Some (JObj echoed) ->
  lookup "test" echoed = Some (JStr s) ->
  s <> "" ->
  SSR.post_data env (JObj props) = Normal (Str ("Received: " ++ s)).
Proof.
  intros Hj Ht Hs.
  unfold SSR.post_data, get_property. rewrite Hj. cbn.
  rewrite Ht. cbn. unfold js_or. cbn.
  apply String.eqb_neq in Hs. rewrite Hs. reflexivity.
Qed.

Lemma post_data_fallback env body j t :
  get_property (Json body) "json" = Normal j ->
  get_property_opt j "test" = Normal t ->
  truthy t = false ->
  SSR.post_data env body = Normal (Str "Received: POST data").
Proof.
  intros Hj Ht Hf.
  unfold SSR.post_data. rewrite Hj. cbn [and_then]. rewrite Ht. cbn [and_then].
  unfold js_or. rewrite Hf. reflexivity.
Qed.

Ltac post_record env req Hq Hnet Hok Hjson E :=
  let block := fresh "block" in
  let r := fresh "r" in
  let Hb := fresh "Hb" in
  let Hr := fresh "Hr" in
  let A := fresh "A" in
  record_at SSR_page 3 env req Hq block r Hb Hr A;
  rewrite Hnet in A; unfold_alone A; rewrite Hok in A; cbn in A;
  rewrite Hjson in A; cbn in A; try fold_post_data_in A;
  rewrite E in A; cbn in A; injection A as <-;
  eexists; split; [exact Hr|]; split; reflexivity.

(** X5.  When the body of the POST answer is an object whose [json]
    property is an object with a non-empty string [test], the record of the
    fourth SSR call is a [SUCCESS] whose data is [Received: ] followed by
    that string. *)
Theorem post_echo_is_shown env req resp props echoed s :
  nth_error (calls SSR_page env) 3 = Some req ->
  net env 3 req = Normal resp ->
  Response.ok resp = true ->
  Response.json resp = Normal (JObj props) ->
  lookup "json" props = Some (JObj echoed) ->
  lookup "test" echoed = Some (JStr s) ->
  s <> "" ->
  exists r,
    nth_error (records SSR_page env) 3 = Some r
    /\ status r = "SUCCESS"
    /\ data r = Some (Str ("Received: " ++ s)).
Proof.
  intros Hq Hnet Hok Hjson Hj Ht Hs.
  pose proof (post_data_echo env props echoed s Hj Ht Hs) as E.
  post_record env req Hq Hnet Hok Hjson E.
Qed.

Lemma post_echo_is_shown_witness :
  let answer :=
    Normal (response_of true 200%float None
              (Normal (JObj [("json", JObj [("test", JStr "hello")])]))) in
  exists r,
    nth_error (records SSR_page (replying answer)) 3 = Some r
    /\ status r = "SUCCESS"
    /\ data r = Some (Str "Received: hello").
Proof.
  refine (post_echo_is_shown
            (replying (Normal (response_of true 200%float None
               (Normal (JObj [("json", JObj [("test", JStr "hello")])])))))
            _ _ _ _ "hello" eq_refl eq_refl eq_refl eq_refl eq_refl eq_refl _).
  discriminate.
Defined.

(** X6.  When the body of the POST answer is not [null] and
    [responseData.json?.test] is falsy - no [json] property, a [json] that
    is [null] or has no [test], a [test] that is empty, zero, false or
    [null] - the record of the fourth SSR call is a [SUCCESS] whose data is
    the fallback [Received: POST data]. *)
Theorem post_echo_falls_back env req resp body j t :
  nth_error (calls SSR_page env) 3 = Some req ->
  net env 3 req = Normal resp ->
  Response.ok resp = true ->
  Response.json resp = Normal body ->
  get_property (Json body) "json" = Normal j ->
  get_property_opt j "test" = Normal t ->
  truthy t = false ->
  exists r,
    nth_error (records SSR_page env) 3 = Some r
    /\ status r = "SUCCESS"
    /\ data r = Some (Str "Received: POST data").
Proof.
  intros Hq Hnet Hok Hjson Hj Ht Hf.
  pose proof (post_data_fallback env body j t Hj Ht Hf) as E.
  post_record env req Hq Hnet Hok Hjson E.
Qed.

Lemma post_echo_falls_back_witness :
  exists r,
    nth_error (records SSR_page all_ok) 3 = Some r
    /\ status r = "SUCCESS"
    /\ data r = Some (Str "Received: POST data").
Proof.
  exact (post_echo_falls_back all_ok _ _ (JObj []) Undefined Undefined
           eq_refl eq_refl eq_refl eq_refl eq_refl eq_refl eq_refl).
Defined.

(** X7.  The fourth SSR call is the only call of either page with a body;
    the body is the JSON text of an object with the label
    [SSR Fetch Proxy Test], the second clock reading and the source.  When
    the answer gives that object back as its [json] property, as the echo
    endpoint does, the record shows the label that was sent. *)
Theorem post_round_trip env :
  (forall p i req,
      nth_error (calls p env) i = Some req ->
      body (init req) =
        match p, i with
        | SSR_page, 3 => Some (JSON_stringify env (posted env))
        | _, _ => None
        end)
  /\ (forall req resp props,
         nth_error (calls SSR_page env) 3 = Some req ->
         net env 3 req = Normal resp ->
         Response.ok resp = true ->
         Response.json resp = Normal (JObj props) ->
         lookup "json" props = Some (posted env) ->
         exists r,
           nth_error (records SSR_page env) 3 = Some r
           /\ status r = "SUCCESS"
           /\ data r = Some (Str "Received: SSR Fetch Proxy Test")).
Proof.
  split.
  - intros p i req Hq. rewrite calls_are_requests in Hq.
    destruct p; destruct i as [|[|[|[|i]]]]; cbn in Hq;
      try (destruct i; discriminate); injection Hq as <-; reflexivity.
  - intros req resp props Hq Hnet Hok Hjson Hj.
    assert (E : SSR.post_data env (JObj props)
                = Normal (Str ("Received: " ++ "SSR Fetch Proxy Test"))).
    { apply (post_data_echo env props _ _ Hj); [reflexivity | discriminate]. }
    post_record env req Hq Hnet Hok Hjson E.
Qed.

(** X8.  A body that parses to [null] on one of the three calls that read
    a property of it is recorded as a [NETWORK_ERROR], although the fetch
    resolved with an [ok] response: the record carries the message of the
    [TypeError] that names the property and neither the status code nor
    data. *)
Theorem null_body_is_a_network_error p env i name req resp :
  property_read p i = Some name ->
  nth_error (calls p env) i = Some req ->
  net env i req = Normal resp ->
  Response.ok resp = true ->
  Response.json resp = Normal JNull ->
  exists r,
    nth_error (records p env) i = Some r
    /\ status r = "NETWORK_ERROR"
    /\ error r = Some ("Cannot read properties of null (reading '" ++ name ++ "')")
    /\ statusCode r = None
    /\ data r = None
    /\ proxyUsed r = catch_guess p i.
Proof.
  intros Hname Hq Hnet Hok Hjson.
  destruct (record_of_request p env i req Hq) as (block & r & Hb & Hr & A).
  exists r. split; [exact Hr|]. clear Hr Hq.
  rewrite Hnet in A.
  pick_case p i Hb; cbn in Hname; try discriminate Hname;
    injection Hname as <-; unfold_alone A; rewrite Hok in A; cbn in A;
    rewrite Hjson in A; cbn in A; injection A as <-; repeat split.
Qed.

Lemma null_body_is_a_network_error_witness :
  exists r,
    nth_error (records ISR_page all_null) 0 = Some r
    /\ status r = "NETWORK_ERROR"
    /\ error r = Some "Cannot read properties of null (reading 'uuid')"
    /\ statusCode r = None
    /\ data r = None
    /\ proxyUsed r = Some "likely_proxy".
Proof.
  exact (null_body_is_a_network_error ISR_page all_null 0 "uuid" _ _
           eq_refl eq_refl eq_refl eq_refl eq_refl).
Defined.

Lemma isr_property_record env i name req resp props :
  property_read ISR_page i = Some name ->
  nth_error (calls ISR_page env) i = Some req ->
  net env i req = Normal resp ->
  Response.ok resp = true ->
  Response.json resp = Normal (JObj props) ->
  exists r,
    nth_error (records ISR_page env) i = Some r
    /\ status r = "SUCCESS"
    /\ data r = Some (match lookup name props with
                      | Some v => Json v
                      | None => Undefined
                      end).
Proof.
  intros Hname Hq Hnet Hok Hjson.
  destruct (record_of_request ISR_page env i req Hq) as (block & r & Hb & Hr & A).
  exists r. split; [exact Hr|]. clear Hr Hq.
  rewrite Hnet in A.
  destruct i as [|[|[|[|i]]]]; cbn [nth_error test_cases] in Hb;
    try (destruct i; discriminate); injection Hb as <-;
    cbn in Hname; try discriminate Hname; injection Hname as <-;
    unfold_alone A; rewrite Hok in A; cbn in A; rewrite Hjson in A;
    unfold ISR.uuid_data, ISR.origin_data, get_property in A;
    destruct (lookup _ props); cbn in A; injection A as <-; split; reflexivity.
Qed.


(** X9.  The first two ISR calls pass the [uuid] and the [origin] property
    of the body on as they are: for a body that is an object the data of
    the [SUCCESS] record is the value of the property, of any type, and
    [undefined] when the object has no such property. *)
Theorem isr_data_is_the_property env i name req resp props :
  property_read ISR_page i = Some name ->
  nth_error (calls ISR_page env) i = Some req ->
  net env i req = Normal resp ->
  Response.ok resp = true ->
  Response.json resp = Normal (JObj props) ->
  exists r,
    nth_error (records ISR_page env) i = Some r
    /\ status r = "SUCCESS"
    /\ data r = Some (match lookup name props with
                      | Some v => Json v
                      | None => Undefined
                      end).
Proof.
  intros Hname Hq Hnet Hok Hjson.
  exact (isr_property_record env i name req resp props Hname Hq Hnet Hok Hjson).
Qed.

Lemma isr_data_is_the_property_witness :
  exists r,
    nth_error (records ISR_page all_ok) 1 = Some r
    /\ status r = "SUCCESS"
    /\ data r = Some Undefined.
Proof.
  exact (isr_data_is_the_property all_ok 1 "origin" _ _ []
           eq_refl eq_refl eq_refl eq_refl eq_refl).
Defined.

(* ================================================================= *)
(** ** Records of answers that are errors *)

(** X10.  For the six test cases that branch on [response.ok], the record
    of an answer that is not [ok] has the error text [HTTP ] followed by
    the status code as the platform prints it, and nothing else: no
    [proxyUsed], also when the answer carries the header, no data and no
    cache information. *)
Theorem http_error_record_is_bare p env i req resp :
  checks_ok p i = true ->
  nth_error (calls p env) i = Some req ->
  net env i req = Normal resp ->
  Response.ok resp = false ->
  exists r,
    nth_error (records p env) i = Some r
    /\ error r = Some ("HTTP " ++ Number_toString env (Response.status resp))
    /\ proxyUsed r = None
    /\ data r = None
    /\ cacheInfo r = None.
Proof.
  intros Hc Hq Hnet Hok.
  destruct (record_of_request p env i req Hq) as (block & r & Hb & Hr & A).
  exists r. split; [exact Hr|]. clear Hr Hq.
  rewrite Hnet in A.
  pick_case p i Hb; cbn in Hc; try discriminate Hc;
    unfold_alone A; rewrite Hok in A; cbn in A; injection A as <-;
    repeat split.
Qed.

Lemma http_error_record_is_bare_witness :
  let answer :=
    Normal (response_of false 503%float (Some "true") (Normal (JObj []))) in
  exists r,
    nth_error (records SSR_page (replying answer)) 0 = Some r
    /\ error r = Some "HTTP 503"
    /\ proxyUsed r = None
    /\ data r = None
    /\ cacheInfo r = None.
Proof.
  exact (http_error_record_is_bare SSR_page
           (replying (Normal (response_of false 503%float (Some "true")
                                (Normal (JObj [])))))
           0 _ _ eq_refl eq_refl eq_refl eq_refl).
Defined.

(** X11.  The error endpoint of the ISR page records every answer the same
    way, whether it is [ok] or not and without reading the body: status
    [HTTP_ERROR], the status code, the proxy header or [unknown], the error
    text [Server returned ] followed by the code, and the cache note. *)
Theorem error_endpoint_record env req resp :
  nth_error (calls ISR_page env) 3 = Some req ->
  net env 3 req = Normal resp ->
  nth_error (records ISR_page env) 3 =
    Some {| test := "Error Endpoint"; status := "HTTP_ERROR";
            statusCode := Some (Response.status resp);
            proxyUsed :=
              Some (match Response.headers_get resp "oe-proxy-used" with
                    | Some h => if String.eqb h "" then "unknown" else h
                    | None => "unknown"
                    end);
            error := Some ("Server returned "
                           ++ Number_toString env (Response.status resp));
            data := None;
            cacheInfo := Some "Error responses may not be cached" |}.
Proof.
  intros Hq Hnet.
  record_at ISR_page 3 env req Hq block r Hb Hr A.
  rewrite Hnet in A. unfold_alone A. injection A as <-. exact Hr.
Qed.

Lemma error_endpoint_record_witness :
  nth_error (records ISR_page all_garbled) 3 =
    Some {| test := "Error Endpoint"; status := "HTTP_ERROR";
            statusCode := Some 200%float;
            proxyUsed := Some "unknown";
            error := Some "Server returned 200";
            data := None;
            cacheInfo := Some "Error responses may not be cached" |}.
Proof.
  exact (error_endpoint_record all_garbled _ _ eq_refl eq_refl).
Defined.

(** X12.  The non-existent-domain probe of the SSR page records every
    answer the same way, whether it is [ok] or not, without reading the
    header or the body: status [UNEXPECTED_SUCCESS], the status code and
    the guess [definitely_proxy]. *)
Theorem probe_record env req resp :
  nth_error (calls SSR_page env) 2 = Some req ->
  net env 2 req = Normal resp ->
  nth_error (records SSR_page env) 2 =
    Some {| test := "Non-existent Domain"; status := "UNEXPECTED_SUCCESS";
            statusCode := Some (Response.status resp);
            proxyUsed := Some "definitely_proxy";
            error := None; data := None; cacheInfo := None |}.
Proof.
  intros Hq Hnet.
  record_at SSR_page 2 env req Hq block r Hb Hr A.
  rewrite Hnet in A. unfold_alone A. injection A as <-. exact Hr.
Qed.

Lemma probe_record_witness :
  nth_error (records SSR_page all_garbled) 2 =
    Some {| test := "Non-existent Domain"; status := "UNEXPECTED_SUCCESS";
            statusCode := Some 200%float;
            proxyUsed := Some "definitely_proxy";
            error := None; data := None; cacheInfo := None |}.
Proof.
  exact (probe_record all_garbled _ _ eq_refl eq_refl).
Defined.

(** X13.  No record of the SSR page has cache information.  A record of
    the ISR page has it exactly when it is a [SUCCESS], or the record of
    the error endpoint built from an answer. *)
Theorem cache_info_marks_isr_answers env :
  Forall (fun r => cacheInfo r = None) (records SSR_page env)
  /\ (forall i r,
         nth_error (records ISR_page env) i = Some r ->
         (exists note, cacheInfo r = Some note)
         <-> (status r = "SUCCESS" \/ (i = 3 /\ status r = "HTTP_ERROR"))).
Proof.
  split.
  - apply Forall_forall. intros r Hin.
    destruct (In_nth_error _ _ Hin) as [i Hi].
    destruct (request_of_record SSR_page env i r Hi) as (block & req & Hb & _ & A).
    destruct i as [|[|[|[|i]]]]; cbn [nth_error test_cases] in Hb;
      try (destruct i; discriminate); injection Hb as <-;
      unfold_alone A; case_split_in A; injection A as <-; reflexivity.
  - intros i r Hi.
    destruct (request_of_record ISR_page env i r Hi) as (block & req & Hb & _ & A).
    destruct i as [|[|[|[|i]]]]; cbn [nth_error test_cases] in Hb;
      try (destruct i; discriminate); injection Hb as <-;
      unfold_alone A; case_split_in A; injection A as <-; cbn;
      (split;
       [ intros [note H]; first [ discriminate H | left; reflexivity
                                | right; split; reflexivity ]
       | intros [H | [H1 H2]];
         first [ discriminate | eexists; reflexivity ] ]).
Qed.

(* ================================================================= *)
(** ** What the page shows *)

Lemma records_are_four p env :
  exists r0 r1 r2 r3, records p env = [r0; r1; r2; r3].
Proof.
  destruct (four_calls_four_records p env) as [_ L].
  destruct (records p env) as [|r0 [|r1 [|r2 [|r3 [|r4 l]]]]]; try discriminate L.
  eauto.
Qed.

Lemma rendered p env :
  exists view s,
    render p env = (Normal view, s)
    /\ cards view =
         map (fun '(i, r) => card_of p r i) (combine (seq 0 4) (records p env))
    /\ In ("Fetch Tests Count", Num 4%float, "text-yellow-400") (summary view).
Proof.
  destruct p; unfold render.
  - destruct (getSSRData_returns env) as (data & s & E & Hl).
    assert (R : records SSR_page env = SSR.fetchTests data).
    { unfold records, run_page, bind, ret. rewrite E. reflexivity. }
    unfold SSR.SSRPage, bind, ret. rewrite E, R.
    do 2 eexists. split; [reflexivity|].
    cbn [cards summary dataDisplay]. unfold length_number. rewrite Hl.
    split; [reflexivity|]. cbn. tauto.
  - destruct (getISRData_returns env) as (data & s & E & Hl).
    assert (R : records ISR_page env = ISR.fetchTests data).
    { unfold records, run_page, bind, ret. rewrite E. reflexivity. }
    unfold ISR.ISRPage, bind, ret. rewrite E, R.
    do 2 eexists. split; [reflexivity|].
    cbn [cards summary dataDisplay]. unfold length_number. rewrite Hl.
    split; [reflexivity|]. cbn. tauto.
Qed.

Lemma card_at p env i r :
  nth_error (records p env) i = Some r ->
  exists view s,
    render p env = (Normal view, s)
    /\ nth_error (cards view) i = Some (card_of p r i).
Proof.
  intros Hr.
  destruct (rendered p env) as (view & s & E & C & _).
  exists view, s. split; [exact E|]. rewrite C.
  destruct (records_are_four p env) as (r0 & r1 & r2 & r3 & R).
  rewrite R in Hr |- *.
  destruct i as [|[|[|[|i]]]]; cbn in Hr |- *;
    try (destruct i; discriminate); injection Hr as <-; reflexivity.
Qed.

(** X14.  Both pages render for every environment, and the summary row
    [Fetch Tests Count] always shows 4, however many of the calls failed. *)
Theorem count_row_shows_four p env :
  exists view s,
    render p env = (Normal view, s)
    /\ In ("Fetch Tests Count", Num 4%float, "text-yellow-400") (summary view).
Proof.
  destruct (rendered p env) as (view & s & E & _ & H). eauto.
Qed.

(** X15.  The cards follow the array: the [i]-th card is keyed [i], its
    title is the label of the [i]-th record and its badge shows the status
    of that record, in the class [badge_class] gives the status. *)
Theorem cards_follow_the_records p env i r :
  nth_error (records p env) i = Some r ->
  exists view s card,
    render p env = (Normal view, s)
    /\ length (cards view) = 4
    /\ nth_error (cards view) i = Some card
    /\ card_key card = Some i
    /\ card_title card = Some (Str (test r))
    /\ card_badge card = Some (badge_class (status r), Str (status r)).
Proof.
  intros Hr.
  destruct (card_at p env i r Hr) as (view & s & E & C).
  exists view, s, (card_of p r i). split; [exact E|].
  split.
  { destruct (rendered p env) as (view' & s' & E' & C' & _).
    assert (view' = view) by congruence. subst view'.
    rewrite C'. destruct (records_are_four p env) as (r0 & r1 & r2 & r3 & R).
    rewrite R. reflexivity. }
  split; [exact C|]. destruct p; repeat split.
Qed.

Lemma cards_follow_the_records_witness :
  let r := {| test := "Timeout Test"; status := "NETWORK_ERROR";
              statusCode := None; proxyUsed := Some "likely_proxy";
              error := Some "fetch failed"; data := None; cacheInfo := None |} in
  exists view s card,
    render SSR_page offline = (Normal view, s)
    /\ length (cards view) = 4
    /\ nth_error (cards view) 1 = Some card
    /\ card_key card = Some 1
    /\ card_title card = Some (Str (test r))
    /\ card_badge card = Some (badge_class (status r), Str (status r)).
Proof.
  exact (cards_follow_the_records SSR_page offline 1 _ eq_refl).
Defined.

Lemma row_label v c l x c' l' x' :
  js_and v (labelled c l x) = labelled c' l' x' ->
  truthy v = true /\ l = l' /\ x = x'.
Proof.
  unfold js_and, labelled. destruct (truthy v); [|discriminate].
  intros H. injection H as _ <- <-. auto.
Qed.

Lemma shown_iff_truthy p t i label v :
  shows (card_of p t i) label v
  <-> In (label, v) (card_fields p t) /\ truthy v = true.
Proof.
  unfold shows. split.
  - intros [c Hin].
    destruct p; cbn [card_of SSR.test_card ISR.test_card card_rows In] in Hin;
      cbn [card_fields In];
      repeat (destruct Hin as [Hin | Hin]); try contradiction;
      apply row_label in Hin; destruct Hin as (T & <- & <-); tauto.
  - intros [Hin T].
    destruct p; cbn [card_of SSR.test_card ISR.test_card card_rows];
      cbn [card_fields In] in Hin;
      repeat (destruct Hin as [Hin | Hin]); try contradiction;
      injection Hin as <- <-; eexists; unfold js_and; rewrite T;
      cbn [In]; repeat (first [left; reflexivity | right]).
Qed.

(** X16.  A card shows a row for a field of its record exactly when the
    value of the field is truthy: a field that is unset, an empty string or
    the number zero gives no row. *)
Theorem card_shows_the_truthy_fields p env i r :
  nth_error (records p env) i = Some r ->
  exists view s card,
    render p env = (Normal view, s)
    /\ nth_error (cards view) i = Some card
    /\ forall label v,
         shows card label v
         <-> In (label, v) (card_fields p r) /\ truthy v = true.
Proof.
  intros Hr.
  destruct (card_at p env i r Hr) as (view & s & E & C).
  exists view, s, (card_of p r i). split; [exact E|]. split; [exact C|].
  intros label v. apply shown_iff_truthy.
Qed.

Lemma card_shows_the_truthy_fields_witness :
  let r := {| test := "Normal Fetch"; status := "NETWORK_ERROR";
              statusCode := None; proxyUsed := None;
              error := Some ""; data := None; cacheInfo := None |} in
  exists view s card,
    render SSR_page silent = (Normal view, s)
    /\ nth_error (cards view) 0 = Some card
    /\ forall label v,
         shows card label v
         <-> In (label, v) (card_fields SSR_page r) /\ truthy v = true.
Proof.
  exact (card_shows_the_truthy_fields SSR_page silent 0 _ eq_refl).
Defined.

(** No row [label] when every field of that label is falsy. *)
Ltac no_row :=
  let v := fresh "v" in
  let Hs := fresh "Hs" in
  let Hin := fresh "Hin" in
  let T := fresh "T" in
  intros [v Hs]; apply shown_iff_truthy in Hs; destruct Hs as [Hin T];
  cbn [card_fields In] in Hin;
  repeat (destruct Hin as [Hin | Hin]); try contradiction;
  try discriminate Hin; injection Hin as <-;
  repeat match goal with
         | H : _ = _ |- _ =>
             tryif constr_eq H T then fail else rewrite H in T
         end;
  cbn in T;
  repeat match goal with
         | H : _ = _ |- _ =>
             tryif constr_eq H T then fail else rewrite H in T
         end;
  try discriminate T.

(** X17.  The card of a call that threw has the badge of its error
    status, no row for a status code and no row for data; it shows the
    text of the exception in the row [Error:] when the text is non-empty,
    and has no such row when the text is empty. *)
Theorem card_of_a_thrown_call p env i req e :
  nth_error (calls p env) i = Some req ->
  throws_at env p i req e ->
  exists view s card,
    render p env = (Normal view, s)
    /\ nth_error (cards view) i = Some card
    /\ (exists st,
           In st ["NETWORK_ERROR"; "EXPECTED_ERROR"]
           /\ card_badge card = Some (badge_class st, Str st))
    /\ (error_text e <> "" -> shows card "Error:" (Str (error_text e)))
    /\ (error_text e = "" -> ~ has_row card "Error:")
    /\ ~ has_row card "Status Code:"
    /\ ~ has_row card "Data:".
Proof.
  intros Hq Ht.
  destruct (record_of_request p env i req Hq) as (block & r & Hb & Hr & A).
  pose proof (caught_record p env i req e r block Hb Ht A) as Hc.
  assert (Fs : In (status r) ["NETWORK_ERROR"; "EXPECTED_ERROR"]).
  { rewrite Hc. cbn [status]. clear - Hb. pick_case p i Hb; cbn; tauto. }
  assert (Fc : statusCode r = None) by (rewrite Hc; reflexivity).
  assert (Fe : error r = Some (error_text e)) by (rewrite Hc; reflexivity).
  assert (Fd : data r = None) by (rewrite Hc; reflexivity).
  clear Hc A Hb.
  destruct (card_at p env i r Hr) as (view & s & E & C).
  exists view, s, (card_of p r i). split; [exact E|]. split; [exact C|].
  split; [exists (status r); split; [exact Fs | destruct p; reflexivity]|].
  split.
  { intros Hne. apply shown_iff_truthy. split.
    - destruct p; cbn [card_fields In]; rewrite Fe; cbn; tauto.
    - cbn. apply String.eqb_neq in Hne. rewrite Hne. reflexivity. }
  split.
  { intros He. destruct p; no_row. }
  split; destruct p; no_row.
Qed.

Lemma card_of_a_thrown_call_witness :
  exists view s card,
    render ISR_page offline = (Normal view, s)
    /\ nth_error (cards view) 2 = Some card
    /\ (exists st,
           In st ["NETWORK_ERROR"; "EXPECTED_ERROR"]
           /\ card_badge card = Some (badge_class st, Str st))
    /\ ("fetch failed" <> "" -> shows card "Error:" (Str "fetch failed"))
    /\ ("fetch failed" = "" -> ~ has_row card "Error:")
    /\ ~ has_row card "Status Code:"
    /\ ~ has_row card "Data:".
Proof.
  exact (card_of_a_thrown_call ISR_page offline 2 _ (ErrorInstance "fetch failed")
           eq_refl (fetch_rejects offline ISR_page 2 _ _ eq_refl)).
Defined.

Lemma failed_answer_code p block env resp r :
  In block (test_cases p) ->
  Response.ok resp = false ->
  alone block env (Normal resp) = [r] ->
  statusCode r = Some (Response.status resp).
Proof.
  intros Hin Hok A.
  destruct p; cbn in Hin;
    repeat (destruct Hin as [<- | Hin]); try contradiction;
    unfold_alone A; rewrite ?Hok in A; cbn in A; injection A as <-; reflexivity.
Qed.

(** X18.  When an answer that is not [ok] has a status code that is falsy
    as a number (zero), the card has no [Status Code:] row and the bare
    number stands in the grid in its place. *)
Theorem falsy_status_code_is_left_bare p env i req resp :
  nth_error (calls p env) i = Some req ->
  net env i req = Normal resp ->
  Response.ok resp = false ->
  number_truthy (Response.status resp) = false ->
  exists view s card,
    render p env = (Normal view, s)
    /\ nth_error (cards view) i = Some card
    /\ ~ has_row card "Status Code:"
    /\ In (Expr (Num (Response.status resp))) (card_rows card).
Proof.
  intros Hq Hnet Hok Hf.
  destruct (record_of_request p env i req Hq) as (block & r & Hb & Hr & A).
  rewrite Hnet in A. apply nth_error_In in Hb.
  pose proof (failed_answer_code p block env resp r Hb Hok A) as Fc.
  destruct (card_at p env i r Hr) as (view & s & E & C).
  exists view, s, (card_of p r i). split; [exact E|]. split; [exact C|].
  split.
  - destruct p; no_row.
  - destruct p; cbn [card_of SSR.test_card ISR.test_card card_rows];
      rewrite Fc; unfold js_and, optional_number, Num; cbn [truthy In];
      rewrite Hf; left; reflexivity.
Qed.

Lemma falsy_status_code_is_left_bare_witness :
  let answer := Normal (response_of false 0%float None (Normal (JObj []))) in
  exists view s card,
    render SSR_page (replying answer) = (Normal view, s)
    /\ nth_error (cards view) 0 = Some card
    /\ ~ has_row card "Status Code:"
    /\ In (Expr (Num 0%float)) (card_rows card).
Proof.
  exact (falsy_status_code_is_left_bare SSR_page
           (replying (Normal (response_of false 0%float None (Normal (JObj [])))))
           0 _ _ eq_refl eq_refl eq_refl eq_refl).
Defined.

(** X19.  When the body of one of the first two ISR answers is an object
    without the property the test case reads, the card has the [SUCCESS]
    badge and the status code of the answer, and no [Data:] row. *)
Theorem missing_property_hides_the_data env i name req resp props :
  property_read ISR_page i = Some name ->
  nth_error (calls ISR_page env) i = Some req ->
  net env i req = Normal resp ->
  Response.ok resp = true ->
  Response.json resp = Normal (JObj props) ->
  lookup name props = None ->
  exists view s card,
    render ISR_page env = (Normal view, s)
    /\ nth_error (cards view) i = Some card
    /\ card_badge card = Some (badge_class "SUCCESS", Str "SUCCESS")
    /\ ~ has_row card "Data:".
Proof.
  intros Hname Hq Hnet Hok Hjson Hmiss.
  destruct (isr_property_record env i name req resp props Hname Hq Hnet Hok Hjson)
    as (r & Hr & Fs & Fd).
  rewrite Hmiss in Fd.
  destruct (card_at ISR_page env i r Hr) as (view & s & E & C).
  exists view, s, (card_of ISR_page r i). split; [exact E|]. split; [exact C|].
  split.
  - cbn [card_of ISR.test_card card_badge card_header]. rewrite Fs. reflexivity.
  - no_row.
Qed.

Lemma missing_property_hides_the_data_witness :
  exists view s card,
    render ISR_page all_ok = (Normal view, s)
    /\ nth_error (cards view) 0 = Some card
    /\ card_badge card = Some (badge_class "SUCCESS", Str "SUCCESS")
    /\ ~ has_row card "Data:".
Proof.
  exact (missing_property_hides_the_data all_ok 0 "uuid" _ _ []
           eq_refl eq_refl eq_refl eq_refl eq_refl eq_refl).
Defined.

Lemma unexpected_success_is_the_probe p i block env o r :
  nth_error (test_cases p) i = Some block ->
  alone block env o = [r] ->
  status r = "UNEXPECTED_SUCCESS" ->
  p = SSR_page /\ i = 2.
Proof.
  intros Hb A Hs.
  pick_case p i Hb; unfold_alone A; case_split_in A; injection A as <-;
    cbn in Hs; first [discriminate Hs | split; reflexivity].
Qed.

(** X20.  Among the records of a run the gray badge, the one without a
    colour of its own, marks exactly the status [UNEXPECTED_SUCCESS], and
    only the third record of the SSR page can have that status. *)
Theorem gray_badge_marks_unexpected_success p env i r :
  nth_error (records p env) i = Some r ->
  (badge_class (status r) = gray_badge <-> status r = "UNEXPECTED_SUCCESS")
  /\ (status r = "UNEXPECTED_SUCCESS" -> p = SSR_page /\ i = 2).
Proof.
  intros Hr.
  destruct (request_of_record p env i r Hr) as (block & req & Hb & _ & A).
  split.
  - apply nth_error_In in Hb.
    destruct (record_kinds p block env _ r Hb A)
      as [(Hs & _) | (resp & fallback & _ & Hs & _)];
      cbn [In] in Hs;
      repeat (destruct Hs as [Hs | Hs]); try contradiction;
      rewrite <- Hs; split; intros H; first [reflexivity | discriminate H].
  - apply (unexpected_success_is_the_probe p i block env _ r Hb A).
Qed.

Lemma gray_badge_marks_unexpected_success_witness :
  let r := {| test := "Non-existent Domain"; status := "UNEXPECTED_SUCCESS";
              statusCode := Some 404%float; proxyUsed := Some "definitely_proxy";
              error := None; data := None; cacheInfo := None |} in
  (badge_class (status r) = gray_badge <-> status r = "UNEXPECTED_SUCCESS")
  /\ (status r = "UNEXPECTED_SUCCESS" -> SSR_page = SSR_page /\ 2 = 2).
Proof.
  exact (gray_badge_marks_unexpected_success SSR_page all_404 2 _ eq_refl).
Defined.

(* ================================================================= *)
(** ** Runs and their calls *)

(** X21.  A data function starts its array afresh whatever ran before: run
    from any state, it returns exactly four records, none of them left
    over from the state it started in, and adds its four calls to the
    log. *)
Theorem data_functions_start_afresh env s :
  (exists data s',
      SSR.getSSRData env s = (Normal data, s')
      /\ length (SSR.fetchTests data) = 4
      /\ tests s' = SSR.fetchTests data
      /\ sent s' = (sent s ++ calls SSR_page env)%list)
  /\ (exists data s',
         ISR.getISRData env s = (Normal data, s')
         /\ length (ISR.fetchTests data) = 4
         /\ tests s' = ISR.fetchTests data
         /\ sent s' = (sent s ++ calls ISR_page env)%list).
Proof.
  split; rewrite calls_are_requests; cbn [test_cases map concat];
    unfold SSR.getSSRData, ISR.getISRData, bind, new_fetchTests, read_fetchTests,
      ret; cbn [sent tests].
  - step_block SSR_page SSR.test1 env. step_block SSR_page SSR.test2 env.
    step_block SSR_page SSR.test3 env. step_block SSR_page SSR.test4 env.
    do 2 eexists. split; [reflexivity|]. cbn [SSR.fetchTests tests sent].
    split; [reflexivity|]. split; [reflexivity|].
    rewrite app_nil_r, <- !app_assoc. reflexivity.
  - step_block ISR_page ISR.test1 env. step_block ISR_page ISR.test2 env.
    step_block ISR_page ISR.test3 env. step_block ISR_page ISR.test4 env.
    do 2 eexists. split; [reflexivity|]. cbn [ISR.fetchTests tests sent].
    split; [reflexivity|]. split; [reflexivity|].
    rewrite app_nil_r, <- !app_assoc. reflexivity.
Qed.

(** X22.  No call of the SSR page carries a cache directive.  Every call
    of the ISR page carries one: [no-store], or a revalidation time that
    is at most the revalidation time of the page. *)
Theorem cache_directives_of_the_calls env :
  Forall (fun q => next_revalidate (init q) = None /\ cache (init q) = None)
         (calls SSR_page env)
  /\ Forall (fun q =>
               cache (init q) = Some "no-store"
               \/ exists n,
                    next_revalidate (init q) = Some n
                    /\ number_le n revalidate = true)
            (calls ISR_page env)
  /\ length (calls ISR_page env) = 4.
Proof.
  rewrite !calls_are_requests. cbn [test_cases map concat].
  unfold request_of. unfold_blocks. cbn.
  split; [repeat constructor|].
  split; [|reflexivity].
  repeat (apply Forall_cons;
          [ first [ left; reflexivity | right; eexists; split; reflexivity ] | ]).
  apply Forall_nil.
Qed.

(* ================================================================= *)
(** ** Success records *)

(** X23.  On the three calls that branch on [response.ok] and read no
    property of the body, every body that parses gives a [SUCCESS], the
    body [null] included; the two delay calls discard the body and record
    the fixed text [Delayed response received]. *)
Theorem any_body_succeeds_where_none_is_read p env i req resp parsed :
  checks_ok p i = true ->
  property_read p i = None ->
  nth_error (calls p env) i = Some req ->
  net env i req = Normal resp ->
  Response.ok resp = true ->
  Response.json resp = Normal parsed ->
  exists r,
    nth_error (records p env) i = Some r
    /\ status r = "SUCCESS"
    /\ data r =
         Some (match p, i with
               | SSR_page, 0 =>
                   Str (first_code_units 100 (JSON_stringify env parsed) ++ "...")
               | _, _ => Str "Delayed response received"
               end).
Proof.
  intros Hc Hn Hq Hnet Hok Hjson.
  destruct (record_of_request p env i req Hq) as (block & r & Hb & Hr & A).
  exists r. split; [exact Hr|]. clear Hr Hq.
  rewrite Hnet in A.
  pick_case p i Hb; cbn in Hc, Hn; try discriminate Hc; try discriminate Hn;
    unfold_alone A; rewrite Hok in A; cbn in A; rewrite Hjson in A; cbn in A;
    injection A as <-; split; reflexivity.
Qed.

Lemma any_body_succeeds_where_none_is_read_witness :
  exists r,
    nth_error (records ISR_page all_null) 2 = Some r
    /\ status r = "SUCCESS"
    /\ data r = Some (Str "Delayed response received").
Proof.
  exact (any_body_succeeds_where_none_is_read ISR_page all_null 2 _ _ JNull
           eq_refl eq_refl eq_refl eq_refl eq_refl eq_refl).
Defined.

Lemma or_string_is_not_empty h fallback :
  fallback <> "" -> or_string h fallback <> "".
Proof.
  intros Hf. unfold or_string. destruct h as [s|]; [|exact Hf].
  destruct (String.eqb s "") eqn:E; [exact Hf|].
  apply String.eqb_neq. exact E.
Qed.

(** X24.  The [proxyUsed] field of a [SUCCESS] record is never empty, so
    the card of a [SUCCESS] always shows the row [Proxy Used:]. *)
Theorem success_always_names_a_proxy p env i r :
  nth_error (records p env) i = Some r ->
  status r = "SUCCESS" ->
  exists used view s card,
    proxyUsed r = Some used
    /\ used <> ""
    /\ render p env = (Normal view, s)
    /\ nth_error (cards view) i = Some card
    /\ shows card "Proxy Used:" (Str used).
Proof.
  intros Hr Hs.
  destruct (request_of_record p env i r Hr) as (block & req & Hb & _ & A).
  apply nth_error_In in Hb.
  destruct (record_kinds p block env _ r Hb A)
    as [(Hc & _) | (resp & fallback & _ & _ & _ & Hf & Hp)].
  { rewrite Hs in Hc. cbn in Hc.
    destruct Hc as [Hc | [Hc | []]]; discriminate Hc. }
  specialize (Hp Hs).
  change (proxyUsed r
          = Some (or_string (Response.headers_get resp "oe-proxy-used") fallback))
    in Hp.
  assert (Hne : or_string (Response.headers_get resp "oe-proxy-used") fallback <> "").
  { apply or_string_is_not_empty.
    cbn in Hf. destruct Hf as [<- | [<- | []]]; discriminate. }
  destruct (card_at p env i r Hr) as (view & s & E & C).
  exists (or_string (Response.headers_get resp "oe-proxy-used") fallback),
    view, s, (card_of p r i).
  split; [exact Hp|]. split; [exact Hne|]. split; [exact E|]. split; [exact C|].
  apply shown_iff_truthy. split.
  - destruct p; cbn [card_fields In]; rewrite Hp; cbn; tauto.
  - cbn. apply String.eqb_neq in Hne. rewrite Hne. reflexivity.
Qed.

Lemma success_always_names_a_proxy_witness :
  exists used view s card,
    Some "unknown" = Some used
    /\ used <> ""
    /\ render SSR_page all_ok = (Normal view, s)
    /\ nth_error (cards view) 0 = Some card
    /\ shows card "Proxy Used:" (Str used).
Proof.
  exact (success_always_names_a_proxy SSR_page all_ok 0 _ eq_refl eq_refl).
Defined.

(* ================================================================= *)
(** ** Every execution of a page *)

Lemma getSSRData_from env s :
  exists data s',
    SSR.getSSRData env s = (Normal data, s')
    /\ length (SSR.fetchTests data) = 4
    /\ tests s' = SSR.fetchTests data
    /\ sent s' = (sent s ++ calls SSR_page env)%list.
Proof.
  rewrite calls_are_requests. cbn [test_cases map concat].
  unfold SSR.getSSRData, bind, new_fetchTests, read_fetchTests, ret.
  cbn [sent tests].
  step_block SSR_page SSR.test1 env. step_block SSR_page SSR.test2 env.
  step_block SSR_page SSR.test3 env. step_block SSR_page SSR.test4 env.
  do 2 eexists. split; [reflexivity|]. cbn [SSR.fetchTests tests sent].
  split; [reflexivity|]. split; [reflexivity|].
  rewrite app_nil_r, <- !app_assoc. reflexivity.
Qed.

Lemma getISRData_from env s :
  exists data s',
    ISR.getISRData env s = (Normal data, s')
    /\ length (ISR.fetchTests data) = 4
    /\ tests s' = ISR.fetchTests data
    /\ sent s' = (sent s ++ calls ISR_page env)%list.
Proof.
  rewrite calls_are_requests. cbn [test_cases map concat].
  unfold ISR.getISRData, bind, new_fetchTests, read_fetchTests, ret.
  cbn [sent tests].
  step_block ISR_page ISR.test1 env. step_block ISR_page ISR.test2 env.
  step_block ISR_page ISR.test3 env. step_block ISR_page ISR.test4 env.
  do 2 eexists. split; [reflexivity|]. cbn [ISR.fetchTests tests sent].
  split; [reflexivity|]. split; [reflexivity|].
  rewrite app_nil_r, <- !app_assoc. reflexivity.
Qed.

Lemma endpoints_of_calls p env :
  map url (calls p env) = endpoints p.
Proof.
  unfold calls.
  destruct p;
    [ destruct (ssr_runs env) as (q0 & q1 & q2 & q3 & r0 & r1 & r2 & r3 & E & U & _)
    | destruct (isr_runs env) as (q0 & q1 & q2 & q3 & r0 & r1 & r2 & r3 & E & U & _) ];
    rewrite E; exact U.
Qed.

Lemma render_is_the_page_function p env :
  render p env = page_function p env start.
Proof. destruct p; reflexivity. Qed.

(** The page function runs its data function and nothing else that touches
    the state. *)
Lemma page_function_from p env s :
  exists view s',
    page_function p env s = (Normal view, s')
    /\ sent s' = (sent s ++ calls p env)%list
    /\ length (tests s') = 4
    /\ length (cards view) = 4.
Proof.
  destruct p; unfold page_function.
  - destruct (getSSRData_from env s) as (data & s' & E & Hl & Ht & Hs).
    unfold SSR.SSRPage, bind, ret. rewrite E.
    do 2 eexists. split; [reflexivity|]. split; [exact Hs|].
    split; [congruence|].
    cbn [cards dataDisplay].
    rewrite length_map, length_combine, length_seq, Hl. reflexivity.
  - destruct (getISRData_from env s) as (data & s' & E & Hl & Ht & Hs).
    unfold ISR.ISRPage, bind, ret. rewrite E.
    do 2 eexists. split; [reflexivity|]. split; [exact Hs|].
    split; [congruence|].
    cbn [cards dataDisplay].
    rewrite length_map, length_combine, length_seq, Hl. reflexivity.
Qed.

(** C4.  Run from any state, whatever ran before and whatever the
    environment answers to the four calls, [getSSRData] and [getISRData]
    return normally and the [fetchTests] array they return has length 4:
    it is the array they created, to which every test case appends exactly
    one record. *)
Theorem fetchTests_has_four_records env s :
  (exists data s',
      SSR.getSSRData env s = (Normal data, s')
      /\ length (SSR.fetchTests data) = 4
      /\ tests s' = SSR.fetchTests data)
  /\ (exists data s',
         ISR.getISRData env s = (Normal data, s')
         /\ length (ISR.fetchTests data) = 4
         /\ tests s' = ISR.fetchTests data)
  /\ (forall p block,
         In block (test_cases p) ->
         exists r, tests (snd (block env s)) = (tests s ++ [r])%list).
Proof.
  split.
  { destruct (getSSRData_from env s) as (data & s' & E & Hl & Ht & _). eauto. }
  split.
  { destruct (getISRData_from env s) as (data & s' & E & Hl & Ht & _). eauto. }
  intros p block Hin.
  destruct (test_case_runs p block env Hin) as [endpoint H].
  destruct (H s) as (q & r & E & _). exists r. rewrite E. reflexivity.
Qed.

(** C8.  Each page function, run from any state, makes exactly four
    outbound calls, one after the other in source order, to the four fixed
    endpoints of its page, whatever the answers are; they are the calls of
    its data function. *)
Theorem calls_go_to_the_fixed_endpoints p env s :
  exists view s',
    page_function p env s = (Normal view, s')
    /\ sent s' = (sent s ++ calls p env)%list
    /\ map url (calls p env) = endpoints p
    /\ length (calls p env) = 4
    /\ map url (sent (snd (render p env))) = endpoints p.
Proof.
  destruct (page_function_from p env s) as (view & s' & E & Hs & _).
  exists view, s'. split; [exact E|]. split; [exact Hs|].
  split; [apply endpoints_of_calls|].
  split; [apply four_calls_four_records|].
  destruct (page_function_from p env start) as (view0 & s0 & E0 & Hs0 & _).
  rewrite (render_is_the_page_function p env), E0. cbn [snd].
  rewrite Hs0. cbn [start sent app].
  apply endpoints_of_calls.
Qed.

(* ----------------------------------------------------------------- *)
(** *** Rendering what the page function returns *)










